(** * tastypie.validation: bundle validation through Django forms

    A shallow embedding of [tastypie/validation.py] (the [Validation] stub,
    [FormValidation] and the helper [model_to_dict]) and the properties of
    it that the specification relies on.

    The file has two embeddings of the same Python code.

    - The first one works on Python values as trees: dictionaries are finite
      maps, lists are lists, and a raised exception is a [Raise] result.  It
      is the one used for everything that is about the values computed.
    - The second one, in [Module Store], places every mutable object (lists,
      dictionaries, bundles, model instances) in an object store and threads
      the store through the code, so that object identity and in-place
      mutation are visible.  It is used for the frame property of
      [form_args]; [Store.reify] reads a store value back as a tree. *)

From stdpp Require Import gmap strings list fin_maps.
From Stdlib Require Import Ascii ZArith.

Set Warnings "-register-all".
Set Default Proof Using "Type".
Open Scope Z_scope.

(** ** Python strings

    [str.strip(chars)], [str.split(sep)] and [seq[-1]], for the only
    instance the module uses: a one-character [chars] and [sep]. The
    functions work on the characters of the string. *)

Module PyStr.

(** [s.lstrip(c)]: drop the leading run of [c]. *)
Fixpoint lstrip (c : ascii) (s : list ascii) : list ascii :=
  match s with
  | [] => []
  | a :: s' => if decide (a = c) then lstrip c s' else s
  end.

(** [s.rstrip(c)]: drop the trailing run of [c]. *)
Definition rstrip (c : ascii) (s : list ascii) : list ascii :=
  reverse (lstrip c (reverse s)).

(** [s.strip(c)]: both ends. *)
Definition strip (c : ascii) (s : list ascii) : list ascii :=
  rstrip c (lstrip c s).

(** [s.split(c)]: the maximal pieces between occurrences of [c]; empty
    pieces are kept, and the result is never the empty list
    (['' .split('/') == ['']]). *)
Fixpoint split (c : ascii) (s : list ascii) : list (list ascii) :=
  match s with
  | [] => [[]]
  | a :: s' =>
      if decide (a = c) then [] :: split c s'
      else match split c s' with
           | piece :: pieces => (a :: piece) :: pieces
           | [] => [[a]]
           end
  end.

(** [pieces[-1]]; [None] stands for the [IndexError] on an empty list. *)
Definition item_last {A} (pieces : list A) : option A := last pieces.

(** The expression [value.strip('/').split('/')[-1]] on characters. *)
Definition last_segment_chars (s : list ascii) : option (list ascii) :=
  item_last (split "/"%char (strip "/"%char s)).

Definition of_chars (s : list ascii) : string := String.string_of_list_ascii s.
Definition to_chars (s : string) : list ascii := String.list_ascii_of_string s.

End PyStr.

(** [value.strip('/').split('/')[-1]] on a string. The [default] is never
    taken: [split] returns at least one piece (lemma
    [PyStrFacts.last_segment_chars_is_Some] below), so the subscript cannot raise
    [IndexError]. *)
Definition last_segment (s : string) : string :=
  PyStr.of_chars (default [] (PyStr.last_segment_chars (PyStr.to_chars s))).

(** ** Python values

    The values that travel through the module.  [str] and [unicode] (the two
    members of [StringTypes]) are both [VStr].  A Django model instance
    carries its primary key and its other attributes; [VObject] is an
    instance of any other class, with its attribute dictionary; [VBundle] is a
    tastypie [Bundle] (its [data], which may be [None], and its [obj]). *)

Inductive val :=
| VNone
| VBool (b : bool)
| VInt (n : Z)
| VStr (s : string)
| VList (items : list val)
| VDict (d : gmap string val)
| VModel (pk : val) (attrs : gmap string val)
| VBundle (bdata : option (gmap string val)) (bobj : val)
| VObject (attrs : gmap string val).

Global Instance val_inhabited : Inhabited val := populate VNone.

(** Python dictionaries with string keys. *)
Abbreviation pydict := (gmap string val).

(** ** Exceptions and results *)

Inductive exn :=
| KeyError (key : string)
| TypeError
| AttributeError (attr : string)
| RuntimeError
| ImproperlyConfigured (msg : string).

Inductive result (A : Type) :=
| Ok (a : A)
| Raise (e : exn).
Arguments Ok {A} a.
Arguments Raise {A} e.

Global Instance result_ret : MRet result := @Ok.
Global Instance result_bind : MBind result := fun A B f m =>
  match m with
  | Ok a => f a
  | Raise e => Raise e
  end.

(** [d[key]] on a dictionary: [KeyError] when the key is missing. *)
Definition getitem (d : pydict) (key : string) : result val :=
  match d !! key with
  | Some v => Ok v
  | None => Raise (KeyError key)
  end.

(** [d1.update(d2)]: the bindings of [d2] win. *)
Definition update (d1 d2 : pydict) : pydict := d2 ∪ d1.

(** Truth value of a dictionary: non-empty. *)
Definition dict_truthy {A} (d : gmap string A) : bool :=
  negb (bool_decide (dom d = ∅)).

(** ** Bundles, resources and forms *)

(** [tastypie.bundle.Bundle], the two attributes the module reads. *)
Record Bundle := mkBundle {
  data : option pydict;
  obj : val;
}.

(** A resource field ([tastypie.fields.ApiField]): its [readonly] flag and
    its [dehydrate] method, which computes the field's value from a bundle. *)
Record ApiField := mkApiField {
  readonly : bool;
  dehydrate : Bundle -> val;
}.

(** A resource, as far as the module is concerned: [resource.fields]. *)
Record Resource := mkResource {
  fields : gmap string ApiField;
}.

(** The classes of form fields that the module tells apart with
    [isinstance(field, (ModelChoiceField, ModelMultipleChoiceField))]. *)
Inductive FormField :=
| ModelChoiceField
| ModelMultipleChoiceField
| PlainField.

Definition is_related (field : FormField) : bool :=
  match field with
  | ModelChoiceField | ModelMultipleChoiceField => true
  | PlainField => false
  end.

(** [django.forms]: [ErrorDict] maps a field name to its [ErrorList]. *)
Abbreviation ErrorDict := (gmap string (list string)).

(** A form class: its declared [base_fields], whether it is a subclass of
    [ModelForm], and its cleaning function, which takes the keyword arguments
    the form is built from and yields the errors and the cleaned data. *)
Record FormClass := mkFormClass {
  base_fields : gmap string FormField;
  is_model_form : bool;
  full_clean : pydict -> ErrorDict * pydict;
}.

(** A form instance. *)
Record Form := mkForm {
  is_bound : bool;
  errors : ErrorDict;
  cleaned_data : pydict;
}.

(** Calling the form class with the keyword arguments, after Django's
    [BaseForm.__init__]: the form is bound when a [data] argument other than
    [None] is given; an unbound form has no errors and no cleaned data. *)
Definition form_new (form_class : FormClass) (kwargs : pydict) : Form :=
  let bound :=
    match kwargs !! "data" with
    | None | Some VNone => false
    | Some _ => true
    end in
  let '(errs, cleaned) :=
    if bound then full_clean form_class kwargs else (∅, ∅) in
  mkForm bound errs cleaned.

(** [form.is_valid()], after Django's [BaseForm.is_valid]:
    [self.is_bound and not bool(self.errors)]. *)
Definition form_is_valid (form : Form) : bool :=
  is_bound form && negb (dict_truthy (errors form)).

(** ** [model_to_dict] (lines 9-20) *)

(** Lines 15-17: the value a field contributes. A nested [Bundle] is
    replaced by [value.data['resource_uri']]; the subscript raises [KeyError]
    when the key is missing and [TypeError] when [value.data] is [None]. *)
Definition dehydrated_value (field : ApiField) (bundle : Bundle) : result val :=
  let value := dehydrate field bundle in
  match value with
  | VBundle (Some d) _ => getitem d "resource_uri"
  | VBundle None _ => Raise TypeError
  | _ => Ok value
  end.

(** The loop over [resource.fields.items()]; an exception ends it. *)
Definition model_to_dict (bundle : Bundle) (resource : Resource) : result pydict :=
  map_fold (fun name field acc =>
    data ← acc;
    if readonly field then Ok data
    else
      value ← dehydrated_value field bundle;
      Ok (<[name := value]> data))
    (Ok ∅) (fields resource).

(** The outcome of [model_to_dict] over the fields [m], stated field by
    field: a dictionary that binds exactly the fields that are not read-only,
    each to its [dehydrated_value], or the exception of one of these. *)
Definition serializes (bundle : Bundle) (m : gmap string ApiField)
    (outcome : result pydict) : Prop :=
  match outcome with
  | Ok md =>
      forall name,
        match m !! name with
        | Some field =>
            if readonly field then md !! name = None
            else exists v,
              dehydrated_value field bundle = Ok v /\ md !! name = Some v
        | None => md !! name = None
        end
  | Raise e =>
      exists name field,
        m !! name = Some field /\ readonly field = false /\
        dehydrated_value field bundle = Raise e
  end.

(** ** Constructor arguments

    A keyword argument of a validator's constructor is a form class or any
    other value. *)
Inductive pyarg :=
| AClass (c : FormClass)
| AValue (v : val).

(** [kwargs.pop(key)] *)
Definition pop {A} (kwargs : gmap string A) (key : string) : result (A * gmap string A) :=
  match kwargs !! key with
  | Some a => Ok (a, delete key kwargs)
  | None => Raise (KeyError key)
  end.

(** ** [class Validation] (lines 23-40) *)

Module Validation.

(** An instance has no attributes of its own. *)
Record t : Set := mk { }.

(** [__init__]: accepts any keyword arguments and ignores them. *)
Definition init (kwargs : gmap string pyarg) : result t := Ok mk.

(** [is_valid(self, bundle, resource, request=None)]: returns [{}]. *)
Definition is_valid (self : t) (bundle : Bundle) (resource : Resource)
    (request : option val) : ErrorDict := ∅.

End Validation.

(** ** [class FormValidation] (lines 43-118) *)

Module FormValidation.

Record t := mk {
  form_class : pyarg;
}.

(** [__init__] (lines 55-60) *)
Definition init (kwargs : gmap string pyarg) : result t :=
  if negb (bool_decide ("form_class" ∈ dom kwargs)) then
    Raise (ImproperlyConfigured
             "You must provide a 'form_class' to 'FormValidation' classes.")
  else
    '(form_class, kwargs) ← pop kwargs "form_class";
    _ ← Validation.init kwargs;
    Ok (mk form_class).

(** [isinstance(value, Model)] and [hasattr(value, 'pk')]. Every model
    instance has the [pk] property; an instance of another class has it when
    [pk] is among its attributes; [None], numbers, strings, lists,
    dictionaries and bundles do not have it. *)
Definition is_model (v : val) : bool :=
  match v with VModel _ _ => true | _ => false end.

Definition has_pk (v : val) : bool :=
  match v with
  | VModel _ _ => true
  | VObject attrs => bool_decide ("pk" ∈ dom attrs)
  | _ => false
  end.

(** [_prepare_related_value] (lines 62-72) *)
Fixpoint _prepare_related_value (value : val) : val :=
  match value with
  | VList items => VList (map _prepare_related_value items)
  | VModel pk _ => pk
  | VDict d =>
      match d !! "id" with
      | Some v => v
      | None => value
      end
  | VStr s => VStr (last_segment s)
  | _ => value
  end.

(** [self.form_class.base_fields] needs a form class. *)
Definition the_form_class (self : t) : result FormClass :=
  match form_class self with
  | AClass c => Ok c
  | AValue _ => Raise (AttributeError "base_fields")
  end.

(** [bundle.data or {}] (line 75) *)
Definition data_or_empty (bundle : Bundle) : pydict :=
  match data bundle with
  | Some d => if dict_truthy d then d else ∅
  | None => ∅
  end.

(** Lines 79-81: the first loop over [base_fields.items()]. *)
Definition declared_only (base_fields : gmap string FormField)
    (bundle_data : pydict) : pydict :=
  map_fold (fun name field data =>
    match bundle_data !! name with
    | Some v => <[name := v]> data
    | None => data
    end) ∅ base_fields.

(** Lines 94-96: the second loop over [base_fields.items()]. *)
Definition prepare_related (base_fields : gmap string FormField)
    (data : pydict) : pydict :=
  map_fold (fun name field data =>
    if is_related field then
      match data !! name with
      | Some v => <[name := _prepare_related_value v]> data
      | None => data
      end
    else data) data base_fields.

(** [copy(data)] of a dictionary: a new dictionary with the same items. *)
Definition copy (data : pydict) : pydict := data.

(** Lines 75-89 of [form_args]: [kwargs] and [data] as they are before the
    related values are prepared. *)
Definition form_data (form_class : FormClass) (bundle : Bundle)
    (resource : Resource) : result (pydict * pydict) :=
  let bundle_data := data_or_empty bundle in
  let data := declared_only (base_fields form_class) bundle_data in
  let kwargs : pydict := ∅ in
  if has_pk (obj bundle) then
    let kwargs :=
      if is_model_form form_class then <["instance" := obj bundle]> kwargs
      else kwargs in
    model_data ← model_to_dict bundle resource;
    Ok (kwargs, update data model_data)
  else Ok (kwargs, data).

(** [form_args] (lines 74-99) *)
Definition form_args (self : t) (bundle : Bundle) (resource : Resource)
    : result pydict :=
  form_class ← the_form_class self;
  '(kwargs, data) ← form_data form_class bundle resource;
  let data := copy data in
  let data := prepare_related (base_fields form_class) data in
  let kwargs := <["data" := VDict data]> kwargs in
  Ok kwargs.

(** [is_valid] (lines 101-118). The method returns the error dictionary and
    may rebind [bundle.data]; the result pairs the returned dictionary with
    the bundle as it is afterwards. *)
Definition is_valid (self : t) (bundle : Bundle) (resource : Resource)
    (request : option val) : result (ErrorDict * Bundle) :=
  kwargs ← form_args self bundle resource;
  form_class ← the_form_class self;
  let form := form_new form_class kwargs in
  if form_is_valid form then
    model_data ← model_to_dict bundle resource;
    let model_data := update model_data (cleaned_data form) in
    Ok (∅, mkBundle (Some model_data) (obj bundle))
  else
    Ok (errors form, bundle).

End FormValidation.

(** * The same code over an object store

    Python lists, dictionaries and class instances are objects with an
    identity: a variable holds a reference, two variables may hold the same
    reference, and [d[k] = v] changes the object for every holder.  Here the
    store is the list of the objects allocated so far, an address is an index
    into it, and every function threads the store. *)

Module Store.

Abbreviation addr := nat.

(** A value is immutable (and kept as it is) or a reference into the store. *)
Inductive sval :=
| SNone
| SBool (b : bool)
| SInt (n : Z)
| SStr (s : string)
| SRef (a : addr).

Inductive object :=
| OList (items : list sval)
| ODict (d : gmap string sval)
| OModel (pk : sval) (attrs : gmap string sval)
| OBundle (bdata : sval) (bobj : sval)
| OObject (attrs : gmap string sval).

Abbreviation store := (list object).

(** Computations: read and write the store, return a value or raise. *)
Definition M (A : Type) : Type := store -> result (A * store).

Global Instance M_ret : MRet M := fun A a h => Ok (a, h).
Global Instance M_bind : MBind M := fun A B f c h =>
  match c h with
  | Ok (a, h') => f a h'
  | Raise e => Raise e
  end.

Definition raise {A} (e : exn) : M A := fun _ => Raise e.

(** The object a value refers to, if it is a reference to a live object. *)
Definition object_of (h : store) (v : sval) : option object :=
  match v with
  | SRef a => h !! a
  | _ => None
  end.

Definition get_object (v : sval) : M (option object) :=
  fun h => Ok (object_of h v, h).

(** A new object, at the next free address. *)
Definition alloc (o : object) : M sval :=
  fun h => Ok (SRef (length h), h ++ [o]).

(** Overwrite the object at [a]. *)
Definition write (a : addr) (o : object) : M () :=
  fun h => Ok ((), <[a := o]> h).

(** *** Dictionary operations; [TypeError] on anything that is not a
    dictionary. *)

Definition as_dict (d : sval) : M (gmap string sval) :=
  o ← get_object d;
  match o with
  | Some (ODict m) => mret m
  | _ => raise TypeError
  end.

(** [{}] *)
Definition dict_new : M sval := alloc (ODict ∅).

(** [key in d] *)
Definition dict_contains (d : sval) (key : string) : M bool :=
  m ← as_dict d; mret (bool_decide (key ∈ dom m)).

(** [d[key]] *)
Definition dict_getitem (d : sval) (key : string) : M sval :=
  m ← as_dict d;
  match m !! key with
  | Some v => mret v
  | None => raise (KeyError key)
  end.

(** [d[key] = v]: the dictionary object itself changes. *)
Definition dict_setitem (d : sval) (key : string) (v : sval) : M () :=
  m ← as_dict d;
  match d with
  | SRef a => write a (ODict (<[key := v]> m))
  | _ => raise TypeError
  end.

(** [d1.update(d2)]: [d1] changes, [d2] does not. *)
Definition dict_update (d1 d2 : sval) : M () :=
  m1 ← as_dict d1;
  m2 ← as_dict d2;
  match d1 with
  | SRef a => write a (ODict (m2 ∪ m1))
  | _ => raise TypeError
  end.

(** [copy(d)]: a new dictionary object with the same items (the values are
    shared, not copied). *)
Definition dict_copy (d : sval) : M sval :=
  m ← as_dict d; alloc (ODict m).

(** Truth value of a Python object. *)
Definition truthy (v : sval) : M bool :=
  match v with
  | SNone => mret false
  | SBool b => mret b
  | SInt n => mret (negb (n =? 0))
  | SStr s => mret (negb (bool_decide (s = "")))
  | SRef _ =>
      o ← get_object v;
      match o with
      | Some (OList items) => mret (negb (bool_decide (items = [])))
      | Some (ODict m) => mret (dict_truthy m)
      | Some _ => mret true
      | None => raise TypeError
      end
  end.

(** [for key, x in m.items(): body], for a dictionary [m] that the loop does
    not change. *)
Definition for_items {A} (m : gmap string A) (body : string -> A -> M ()) : M () :=
  map_fold (fun key x done => _ ← done; body key x) (mret ()) m.

(** [[f(item) for item in items]] *)
Fixpoint for_each (f : sval -> M sval) (items : list sval) : M (list sval) :=
  match items with
  | [] => mret []
  | item :: items =>
      v ← f item;
      vs ← for_each f items;
      mret (v :: vs)
  end.

(** *** Bundles and resources *)

(** [bundle.data] and [bundle.obj]; [AttributeError] on anything that is not
    a bundle. *)
Definition bundle_data (bundle : sval) : M sval :=
  o ← get_object bundle;
  match o with
  | Some (OBundle d _) => mret d
  | _ => raise (AttributeError "data")
  end.

Definition bundle_obj (bundle : sval) : M sval :=
  o ← get_object bundle;
  match o with
  | Some (OBundle _ x) => mret x
  | _ => raise (AttributeError "obj")
  end.

(** [isinstance(value, Bundle)] *)
Definition is_bundle (value : sval) : M bool :=
  o ← get_object value;
  mret (match o with Some (OBundle _ _) => true | _ => false end).

(** [hasattr(value, 'pk')] *)
Definition has_pk (value : sval) : M bool :=
  o ← get_object value;
  mret (match o with
        | Some (OModel _ _) => true
        | Some (OObject attrs) => bool_decide ("pk" ∈ dom attrs)
        | _ => false
        end).

(** A resource field: [dehydrate] runs in the store. *)
Record ApiField := mkApiField {
  readonly : bool;
  dehydrate : sval -> M sval;
}.

Record Resource := mkResource {
  fields : gmap string ApiField;
}.

(** [model_to_dict] (lines 9-20) *)
Definition model_to_dict (bundle : sval) (resource : Resource) : M sval :=
  data ← dict_new;
  _ ← for_items (fields resource) (fun name field =>
        if readonly field then mret ()
        else
          value ← dehydrate field bundle;
          nested ← is_bundle value;
          value ← (if nested : bool then
                     d ← bundle_data value; dict_getitem d "resource_uri"
                   else mret value);
          dict_setitem data name value);
  mret data.

(** [_prepare_related_value] (lines 62-72). The list comprehension builds a
    new list object. [depth] bounds the nesting of the recursive calls: a
    list that contains itself exhausts every bound, as it exhausts Python's
    recursion limit ([RuntimeError]). *)
Fixpoint _prepare_related_value (depth : nat) (value : sval) : M sval :=
  match depth with
  | O => raise RuntimeError
  | S depth =>
      o ← get_object value;
      match o with
      | Some (OList items) =>
          items ← for_each (_prepare_related_value depth) items;
          alloc (OList items)
      | Some (OModel pk _) => mret pk
      | Some (ODict m) =>
          match m !! "id" with
          | Some v => mret v
          | None => mret value
          end
      | _ =>
          match value with
          | SStr s => mret (SStr (last_segment s))
          | _ => mret value
          end
      end
  end.

(** [form_args] (lines 74-99); the result is the reference to [kwargs]. *)
Definition form_args (depth : nat) (self : FormValidation.t) (bundle : sval)
    (resource : Resource) : M sval :=
  form_class ← (match FormValidation.form_class self with
                | AClass c => mret c
                | AValue _ => raise (AttributeError "base_fields")
                end);
  d ← bundle_data bundle;
  t ← truthy d;
  bundle_data ← (if t : bool then mret d else dict_new);
  data ← dict_new;
  _ ← for_items (base_fields form_class) (fun name field =>
        present ← dict_contains bundle_data name;
        if present : bool then
          v ← dict_getitem bundle_data name;
          dict_setitem data name v
        else mret ());
  kwargs ← dict_new;
  o ← bundle_obj bundle;
  pk ← has_pk o;
  _ ← (if pk : bool then
         _ ← (if is_model_form form_class then dict_setitem kwargs "instance" o
              else mret ());
         model_data ← model_to_dict bundle resource;
         dict_update data model_data
       else mret ());
  data ← dict_copy data;
  _ ← for_items (base_fields form_class) (fun name field =>
        if is_related field then
          present ← dict_contains data name;
          if present : bool then
            v ← dict_getitem data name;
            v ← _prepare_related_value depth v;
            dict_setitem data name v
          else mret ()
        else mret ());
  _ ← dict_setitem kwargs "data" data;
  mret kwargs.

(** *** What a computation leaves alone

    [h `prefix_of` h'] says that every object of [h] is in [h'], at the same
    address and as it was: [h'] differs from [h] by new objects only. *)

(** A reference to an object that did not exist in [h0]. *)
Definition fresh (h0 : store) (v : sval) : Prop :=
  exists a, v = SRef a /\ (length h0 <= a)%nat.

(** Started in a store that still has the objects of [h0] as they were, [c]
    ends (if it returns) in such a store, with a result that satisfies [Q]. *)
Definition keeps (h0 : store) {A} (c : M A) (Q : A -> Prop) : Prop :=
  forall h,
    h0 `prefix_of` h ->
    match c h with
    | Ok (a, h') => h0 `prefix_of` h' /\ Q a
    | Raise _ => True
    end.

(** [c] changes no object that exists when it starts; it may create some. *)
Definition only_allocates {A} (c : M A) : Prop :=
  forall h a h', c h = Ok (a, h') -> h `prefix_of` h'.

(** The assumption made on a resource: the [dehydrate] method of each of its
    fields, called on the bundle, changes no existing object. *)
Definition dehydrate_reads_only (bundle : sval) (resource : Resource) : Prop :=
  forall name field,
    fields resource !! name = Some field ->
    only_allocates (dehydrate field bundle).

(** *** Reading a store value as a tree

    The value of the first embedding that a store value stands for, following
    references to a depth of [depth]; [None] when the references go deeper
    (or round in a circle), or lead nowhere. *)

Definition reify_items {A B} (f : A -> option B) (m : gmap string A)
    : option (gmap string B) :=
  map_fold (fun key x acc => d ← acc; y ← f x; Some (<[key := y]> d))
    (Some ∅) m.

Fixpoint reify (depth : nat) (h : store) (v : sval) : option val :=
  match v with
  | SNone => Some VNone
  | SBool b => Some (VBool b)
  | SInt n => Some (VInt n)
  | SStr s => Some (VStr s)
  | SRef a =>
      match depth with
      | O => None
      | S depth =>
          match h !! a with
          | Some (OList items) => VList <$> mapM (reify depth h) items
          | Some (ODict m) => VDict <$> reify_items (reify depth h) m
          | Some (OModel pk attrs) =>
              pk ← reify depth h pk;
              attrs ← reify_items (reify depth h) attrs;
              Some (VModel pk attrs)
          | Some (OBundle d o) =>
              o ← reify depth h o;
              match d with
              | SNone => Some (VBundle None o)
              | _ =>
                  d ← reify depth h d;
                  match d with
                  | VDict m => Some (VBundle (Some m) o)
                  | _ => None
                  end
              end
          | Some (OObject attrs) =>
              VObject <$> reify_items (reify depth h) attrs
          | None => None
          end
      end
  end.

End Store.

(** * Sample data

    A form class with a plain field and two related fields, bundles for a
    creation and for an update, and two resources. *)

Module Sample.

(** The form requires [title] and cleans to the data it was given. *)
Definition note_clean (kwargs : pydict) : ErrorDict * pydict :=
  match kwargs !! "data" with
  | Some (VDict d) =>
      match d !! "title" with
      | Some _ => (∅, d)
      | None => ({["title" := ["This field is required."]]}, ∅)
      end
  | _ => (∅, ∅)
  end.

Definition NoteForm : FormClass :=
  mkFormClass
    {["title" := PlainField; "category" := ModelChoiceField;
      "tags" := ModelMultipleChoiceField]}
    true note_clean.

Definition note_validation : FormValidation.t :=
  FormValidation.mk (AClass NoteForm).

Definition tag (pk : Z) : val := VModel (VInt pk) ∅.

(** The primary keys and attributes of the two tags of the note. *)
Definition note_tags : list (val * pydict) := [(VInt 1, ∅); (VInt 2, ∅)].

Definition note_data : pydict :=
  {["title" := VStr "hello"; "category" := VStr "/api/v1/category/5/";
    "tags" := VList [tag 1; tag 2]; "secret" := VInt 1]}.

(** A note that is being created: no object yet. *)
Definition new_note : Bundle := mkBundle (Some note_data) VNone.

(** A note that is being updated. *)
Definition saved_note : Bundle := mkBundle (Some note_data) (VModel (VInt 7) ∅).

(** A note without a title. *)
Definition untitled_note : Bundle :=
  mkBundle (Some {["category" := VStr "/api/v1/category/5/"]}) VNone.

Definition author_bundle : val :=
  VBundle (Some {["resource_uri" := VStr "/api/v1/user/1/"]}) VNone.

Definition NoteResource : Resource :=
  mkResource
    {["id" := mkApiField true (fun _ => VInt 7);
      "title" := mkApiField false (fun _ => VStr "stored");
      "author" := mkApiField false (fun _ => author_bundle)]}.

Definition note_model_data : pydict :=
  {["title" := VStr "stored"; "author" := VStr "/api/v1/user/1/"]}.

(** A resource whose [author] field dehydrates to the full bundle of a
    resource that has no [resource_uri] field. *)
Definition BareResource : Resource :=
  mkResource {["author" := mkApiField false (fun _ => VBundle (Some ∅) VNone)]}.

(** The same update in the object store: the dictionary [bundle.data] at
    address 0, its list of tags at 1, the tags at 2 and 3, the note at 4 and
    the bundle at 5. *)
Definition note_store : Store.store :=
  [ Store.ODict {["title" := Store.SStr "hello";
                  "category" := Store.SStr "/api/v1/category/5/";
                  "tags" := Store.SRef 1; "secret" := Store.SInt 1]};
    Store.OList [Store.SRef 2; Store.SRef 3];
    Store.OModel (Store.SInt 1) ∅;
    Store.OModel (Store.SInt 2) ∅;
    Store.OModel (Store.SInt 7) ∅;
    Store.OBundle (Store.SRef 0) (Store.SRef 4) ].

Definition note_ref : Store.sval := Store.SRef 5.

(** [author] dehydrates to a new bundle with a new data dictionary. *)
Definition dehydrate_author (bundle : Store.sval) : Store.M Store.sval :=
  d ← Store.alloc
         (Store.ODict {["resource_uri" := Store.SStr "/api/v1/user/1/"]});
  Store.alloc (Store.OBundle d Store.SNone).

Definition StoredNoteResource : Store.Resource :=
  Store.mkResource
    {["title" := Store.mkApiField false (fun _ => mret (Store.SStr "stored"));
      "author" := Store.mkApiField false dehydrate_author]}.

End Sample.

(** * Properties of the string functions *)

Module PyStrFacts.
Import PyStr.

Lemma split_not_nil c s : split c s ≠ [].
Proof. destruct s as [|a s]; simpl; [done|]. case_decide; [done|]. by destruct (split c s). Qed.

Lemma last_split_is_Some c s : is_Some (last (split c s)).
Proof.
  destruct (split c s) as [|p ps] eqn:E; [by apply split_not_nil in E|].
  rewrite last_is_Some. done.
Qed.

Lemma last_split_cons_sep c s : last (split c (c :: s)) = last (split c s).
Proof.
  simpl. rewrite decide_True by done.
  destruct (split c s) as [|p ps] eqn:E; [by apply split_not_nil in E|]. done.
Qed.

Lemma last_split_lstrip c s : last (split c (lstrip c s)) = last (split c s).
Proof.
  induction s as [|a s IH]; [done|]. simpl lstrip. case_decide as Ha; [|done].
  subst a. by rewrite last_split_cons_sep.
Qed.

Lemma lstrip_snoc c s a :
  lstrip c (s ++ [a]) =
    match lstrip c s with
    | [] => if decide (a = c) then [] else [a]
    | r => r ++ [a]
    end.
Proof.
  induction s as [|b s IH]; simpl; [done|].
  destruct (decide (b = c)); [exact IH|done].
Qed.

Lemma rstrip_cons c a s :
  rstrip c (a :: s) =
    match rstrip c s with
    | [] => if decide (a = c) then [] else [a]
    | r => a :: r
    end.
Proof.
  unfold rstrip. rewrite reverse_cons, lstrip_snoc.
  destruct (lstrip c (reverse s)) as [|b r] eqn:E.
  - rewrite reverse_nil. by case_decide.
  - rewrite reverse_app, reverse_singleton. simpl.
    destruct (reverse (b :: r)) eqn:E'; [|done].
    apply (f_equal reverse) in E'. rewrite reverse_involutive in E'. done.
Qed.

Lemma last_split_rstrip_lstrip c s :
  last (split c (rstrip c (lstrip c s))) = last (split c (rstrip c s)).
Proof.
  induction s as [|a s IH]; [done|]. simpl lstrip. case_decide as Ha; [|done].
  subst a. rewrite IH, rstrip_cons. destruct (rstrip c s) as [|b r] eqn:E.
  - by rewrite decide_True.
  - by rewrite last_split_cons_sep.
Qed.
(** [value.strip('/').split('/')[-1]] never raises [IndexError]. *)
Lemma last_segment_chars_is_Some s : is_Some (last_segment_chars s).
Proof. apply last_split_is_Some. Qed.

End PyStrFacts.

(** * Properties of the value-level embedding *)

Section loops.
Import FormValidation.
Implicit Types (bf : gmap string FormField) (d : pydict) (name : string).

Lemma bind_Ok {A B} (m : result A) (f : A -> result B) b :
  m ≫= f = Ok b <-> exists a, m = Ok a /\ f a = Ok b.
Proof.
  destruct m as [a|e]; simpl; split.
  - eauto.
  - by intros (? & [= <-] & ?).
  - done.
  - by intros (? & ? & ?).
Qed.

Lemma bind_Raise {A B} (m : result A) (f : A -> result B) e :
  m ≫= f = Raise e <-> m = Raise e \/ exists a, m = Ok a /\ f a = Raise e.
Proof.
  destruct m as [a|e']; simpl; split.
  - eauto.
  - by intros [?|(? & [= <-] & ?)].
  - intros [= ->]. by left.
  - by intros [[= ->]|(? & ? & ?)].
Qed.

Lemma data_or_empty_lookup bundle name :
  data_or_empty bundle !! name = data bundle ≫= (.!! name).
Proof.
  unfold data_or_empty. destruct (data bundle) as [d|]; simpl; [|done].
  unfold dict_truthy. case_bool_decide as Hd; simpl; [|done].
  rewrite lookup_empty. symmetry. apply not_elem_of_dom. rewrite Hd. set_solver.
Qed.

Lemma declared_only_lookup bf d name :
  declared_only bf d !! name =
    match bf !! name with
    | Some _ => d !! name
    | None => None
    end.
Proof.
  unfold declared_only. revert name.
  apply (map_fold_weak_ind (fun r m => forall name, r !! name =
    match m !! name with Some _ => d !! name | None => None end)).
  - intros name. by rewrite !lookup_empty.
  - intros i x m r Hi IH name. destruct (decide (name = i)) as [->|Hne].
    + rewrite lookup_insert_eq. destruct (d !! i) eqn:E.
      * by rewrite lookup_insert_eq.
      * by rewrite IH, Hi.
    + rewrite lookup_insert_ne by done. rewrite <- IH.
      destruct (d !! i); [by rewrite lookup_insert_ne|done].
Qed.

Lemma prepare_related_lookup bf d name :
  prepare_related bf d !! name =
    match bf !! name with
    | Some field =>
        if is_related field then _prepare_related_value <$> d !! name
        else d !! name
    | None => d !! name
    end.
Proof.
  unfold prepare_related. revert name.
  apply (map_fold_weak_ind (fun r m => forall name, r !! name =
    match m !! name with
    | Some field =>
        if is_related field then _prepare_related_value <$> d !! name
        else d !! name
    | None => d !! name
    end)).
  - intros name. by rewrite lookup_empty.
  - intros i x m r Hi IH name. destruct (decide (name = i)) as [->|Hne].
    + rewrite lookup_insert_eq. pose proof (IH i) as IHi. rewrite Hi in IHi.
      destruct (is_related x); [|done].
      destruct (r !! i) eqn:E; rewrite <- IHi; [by rewrite lookup_insert_eq|done].
    + rewrite lookup_insert_ne by done. rewrite <- IH.
      destruct (is_related x); [|done].
      destruct (r !! i); [by rewrite lookup_insert_ne|done].
Qed.

End loops.

Section serialization.
Implicit Types (bundle : Bundle) (resource : Resource) (md : pydict).

Lemma model_to_dict_serializes bundle resource :
  serializes bundle (fields resource) (model_to_dict bundle resource).
Proof.
  unfold model_to_dict.
  apply (map_fold_weak_ind (fun acc m => serializes bundle m acc)).
  - intros name. by rewrite !lookup_empty.
  - intros i x m [md|e] Hi IH; simpl in *.
    + destruct (readonly x) eqn:Hro; simpl.
      * intros name. destruct (decide (name = i)) as [->|Hne].
        -- rewrite lookup_insert_eq, Hro. specialize (IH i). by rewrite Hi in IH.
        -- rewrite lookup_insert_ne by done. apply IH.
      * destruct (dehydrated_value x bundle) as [v|e] eqn:Hv; simpl.
        -- intros name. destruct (decide (name = i)) as [->|Hne].
           ++ rewrite !lookup_insert_eq, Hro. eauto.
           ++ rewrite !lookup_insert_ne by done. apply IH.
        -- exists i, x. by rewrite lookup_insert_eq.
    + destruct IH as (name & field & Hm & Hro & He).
      exists name, field. split_and!; [|done..].
      rewrite lookup_insert_ne; [done|]. intros ->. by rewrite Hi in Hm.
Qed.

Lemma model_to_dict_lookup bundle resource md name :
  model_to_dict bundle resource = Ok md ->
  match fields resource !! name with
  | Some field =>
      if readonly field then md !! name = None
      else exists v, dehydrated_value field bundle = Ok v /\ md !! name = Some v
  | None => md !! name = None
  end.
Proof.
  intros Hmd. pose proof (model_to_dict_serializes bundle resource) as H.
  rewrite Hmd in H. apply H.
Qed.

Lemma model_to_dict_Raise bundle resource e :
  model_to_dict bundle resource = Raise e ->
  exists name field,
    fields resource !! name = Some field /\ readonly field = false /\
    dehydrated_value field bundle = Raise e.
Proof.
  intros Hmd. pose proof (model_to_dict_serializes bundle resource) as H.
  by rewrite Hmd in H.
Qed.

Lemma model_to_dict_returns bundle resource :
  (forall name field,
     fields resource !! name = Some field -> readonly field = false ->
     exists v, dehydrated_value field bundle = Ok v) ->
  exists md, model_to_dict bundle resource = Ok md.
Proof.
  intros Hall. destruct (model_to_dict bundle resource) as [md|e] eqn:Hmd; [eauto|].
  apply model_to_dict_Raise in Hmd as (name & field & Hf & Hro & He).
  destruct (Hall _ _ Hf Hro) as [v Hv]. congruence.
Qed.

End serialization.

Section form_args.
Import FormValidation.
Implicit Types (fc : FormClass) (bundle : Bundle) (resource : Resource).
Implicit Types (name : string) (d md kwargs : pydict).

(** [form_data] returns unless [model_to_dict] is called and raises. *)
Lemma form_data_create fc bundle resource :
  has_pk (obj bundle) = false ->
  form_data fc bundle resource =
    Ok (∅, declared_only (base_fields fc) (data_or_empty bundle)).
Proof. unfold form_data. by intros ->. Qed.


Lemma form_data_Raise fc bundle resource e :
  form_data fc bundle resource = Raise e ->
  has_pk (obj bundle) = true /\ model_to_dict bundle resource = Raise e.
Proof.
  unfold form_data. destruct (has_pk (obj bundle)); [|done].
  destruct (model_to_dict bundle resource); simpl; [done|]. by intros [= ->].
Qed.

Lemma form_data_no_data fc bundle resource kwargs d :
  form_data fc bundle resource = Ok (kwargs, d) -> kwargs !! "data" = None.
Proof.
  unfold form_data. destruct (has_pk (obj bundle)).
  - destruct (model_to_dict bundle resource); simpl; [|done].
    intros [= <- _]. destruct (is_model_form fc); [|done].
    by rewrite lookup_insert_ne.
  - by intros [= <- _].
Qed.

Lemma form_args_unfold fc bundle resource :
  form_args (mk (AClass fc)) bundle resource =
    '(kwargs, d) ← form_data fc bundle resource;
    Ok (<["data" := VDict (prepare_related (base_fields fc) d)]> kwargs).
Proof. done. Qed.

Lemma form_args_Ok fc bundle resource kwargs :
  form_args (mk (AClass fc)) bundle resource = Ok kwargs <->
  exists kwargs0 d,
    form_data fc bundle resource = Ok (kwargs0, d) /\
    kwargs = <["data" := VDict (prepare_related (base_fields fc) d)]> kwargs0.
Proof.
  rewrite form_args_unfold, bind_Ok. split.
  - intros ([kwargs0 d] & ? & [= <-]). eauto.
  - intros (kwargs0 & d & ? & ->). by exists (kwargs0, d).
Qed.

Lemma form_args_Raise fc bundle resource e :
  form_args (mk (AClass fc)) bundle resource = Raise e ->
  has_pk (obj bundle) = true /\ model_to_dict bundle resource = Raise e.
Proof.
  rewrite form_args_unfold, bind_Raise. intros [H|([kwargs0 d] & _ & [=])].
  by apply form_data_Raise in H.
Qed.

End form_args.

(** ** The stub validator *)

(** C8. The base validator checks nothing: whatever the bundle, the resource
    and the request are, [Validation.is_valid] returns the empty mapping. *)
Theorem validation_is_valid_empty (self : Validation.t) (bundle : Bundle)
    (resource : Resource) (request : option val) :
  Validation.is_valid self bundle resource request = ∅.
Proof. reflexivity. Qed.

(** ** Construction of a form validator *)

(** C3. [FormValidation(...)] raises [ImproperlyConfigured] exactly when no
    [form_class] keyword argument is given, at construction, and otherwise
    succeeds and stores the argument in [self.form_class]. *)
Theorem form_validation_init (kwargs : gmap string pyarg) :
  FormValidation.init kwargs =
    match kwargs !! "form_class" with
    | Some c => Ok (FormValidation.mk c)
    | None =>
        Raise (ImproperlyConfigured
                 "You must provide a 'form_class' to 'FormValidation' classes.")
    end.
Proof.
  unfold FormValidation.init, pop. case_bool_decide as Hin; simpl.
  - apply elem_of_dom in Hin as [c Hc]. by rewrite Hc.
  - apply not_elem_of_dom in Hin. by rewrite Hin.
Qed.

(** ** Preparing related values *)

Section related.
Import FormValidation.
Implicit Types (fc : FormClass) (bundle : Bundle) (resource : Resource).
Implicit Types (name : string) (d md kwargs : pydict).

Lemma prepare_related_value_list (items : list val) :
  _prepare_related_value (VList items) =
    VList (_prepare_related_value <$> items).
Proof. done. Qed.

Lemma prepare_related_value_models (ms : list (val * pydict)) :
  _prepare_related_value <$> ((fun m => VModel m.1 m.2) <$> ms) = fst <$> ms.
Proof. induction ms as [|[pk attrs] ms IH]; [done|]. csimpl. by rewrite IH. Qed.

(** What the form receives for a related field: the prepared value of what
    [form_data] holds for it. *)
Lemma form_args_related fc bundle resource name field kwargs0 d0 v :
  base_fields fc !! name = Some field ->
  is_related field = true ->
  form_data fc bundle resource = Ok (kwargs0, d0) ->
  d0 !! name = Some v ->
  exists kwargs d,
    form_args (mk (AClass fc)) bundle resource = Ok kwargs /\
    kwargs !! "data" = Some (VDict d) /\
    d !! name = Some (_prepare_related_value v).
Proof.
  intros Hf Hrel Hfd Hv. eexists _, _. split_and!.
  - apply form_args_Ok. eauto.
  - by rewrite lookup_insert_eq.
  - by rewrite prepare_related_lookup, Hf, Hrel, Hv.
Qed.

(** In a creation (the object has no [pk]) the value that [form_data] holds
    for a declared field is the one of [bundle.data]. *)
Lemma form_data_create_lookup fc bundle resource name field kwargs0 d0 :
  base_fields fc !! name = Some field ->
  has_pk (obj bundle) = false ->
  form_data fc bundle resource = Ok (kwargs0, d0) ->
  d0 !! name = data bundle ≫= (.!! name).
Proof.
  intros Hf Hpk. rewrite form_data_create by done. intros [= _ <-].
  by rewrite declared_only_lookup, Hf, data_or_empty_lookup.
Qed.

End related.

Section claims.
Import FormValidation.
Implicit Types (fc : FormClass) (bundle : Bundle) (resource : Resource).
Implicit Types (name : string) (d md kwargs : pydict).

(** C4. A related form field ([ModelChoiceField] or
    [ModelMultipleChoiceField]) whose value, when the relations are prepared,
    is a string [s]: the form receives [s.strip('/').split('/')[-1]], which
    is the last segment of [s] without its trailing slashes; for
    ['/api/v1/category/5/'] it is ['5'].  In a creation the value prepared is
    the one of [bundle.data]. *)
Theorem related_uri_prepared fc bundle resource name field kwargs0 d0 s :
  base_fields fc !! name = Some field ->
  is_related field = true ->
  form_data fc bundle resource = Ok (kwargs0, d0) ->
  d0 !! name = Some (VStr s) ->
  (exists kwargs d,
     form_args (mk (AClass fc)) bundle resource = Ok kwargs /\
     kwargs !! "data" = Some (VDict d) /\
     d !! name = Some (VStr (last_segment s))) /\
  last_segment s =
    PyStr.of_chars (default [] (last (PyStr.split "/" (PyStr.rstrip "/"
                                                         (PyStr.to_chars s))))) /\
  last_segment "/api/v1/category/5/" = "5" /\
  (has_pk (obj bundle) = false -> data bundle ≫= (.!! name) = Some (VStr s)).
Proof.
  intros Hf Hrel Hfd Hs. split_and!.
  - by destruct (form_args_related _ _ _ _ _ _ _ _ Hf Hrel Hfd Hs) as (? & ? & ?); eauto.
  - unfold last_segment, PyStr.last_segment_chars, PyStr.item_last, PyStr.strip.
    by rewrite PyStrFacts.last_split_rstrip_lstrip.
  - reflexivity.
  - intros Hpk. by rewrite <- (form_data_create_lookup _ _ _ _ _ _ _ Hf Hpk Hfd).
Qed.

(** C6. A related form field whose value, when the relations are prepared,
    is a list of model instances: the form receives the list of their primary
    keys, in the same order.  The preparation of a list is the list of the
    prepared items, so it goes into nested lists.  In a creation the value
    prepared is the one of [bundle.data]. *)
Theorem related_models_prepared fc bundle resource name field kwargs0 d0
    (ms : list (val * pydict)) :
  base_fields fc !! name = Some field ->
  is_related field = true ->
  form_data fc bundle resource = Ok (kwargs0, d0) ->
  d0 !! name = Some (VList ((fun m => VModel m.1 m.2) <$> ms)) ->
  (exists kwargs d,
     form_args (mk (AClass fc)) bundle resource = Ok kwargs /\
     kwargs !! "data" = Some (VDict d) /\
     d !! name = Some (VList (fst <$> ms))) /\
  (forall items,
     _prepare_related_value (VList items) =
       VList (_prepare_related_value <$> items)) /\
  (has_pk (obj bundle) = false ->
   data bundle ≫= (.!! name) = Some (VList ((fun m => VModel m.1 m.2) <$> ms))).
Proof.
  intros Hf Hrel Hfd Hv. split_and!.
  - destruct (form_args_related _ _ _ _ _ _ _ _ Hf Hrel Hfd Hv) as (kw & d & ? & ? & Hd).
    exists kw, d. split_and!; [done..|].
    by rewrite Hd, prepare_related_value_list, prepare_related_value_models.
  - apply prepare_related_value_list.
  - intros Hpk. by rewrite <- (form_data_create_lookup _ _ _ _ _ _ _ Hf Hpk Hfd).
Qed.

(** C9. A value that is not a list, not a model instance, not a dictionary
    with an ['id'] key and not a string is returned as it is. *)
Theorem prepare_related_value_other (v : val) :
  (forall items, v <> VList items) ->
  is_model v = false ->
  (forall d, v = VDict d -> d !! "id" = None) ->
  (forall s, v <> VStr s) ->
  _prepare_related_value v = v.
Proof.
  intros Hlist Hmodel Hdict Hstr. destruct v; simpl; try done.
  - by destruct (Hstr s).
  - by destruct (Hlist items).
  - by rewrite (Hdict d).
Qed.


(** C7. The ['data'] that [form_args] prepares binds no key of [bundle.data]
    that is not a declared field of the form class: in a creation every key
    of it is a declared field, and in an update a key that is not declared is
    bound exactly as the serialization of the resource binds it. *)
Theorem form_args_declared_only fc bundle resource kwargs :
  form_args (mk (AClass fc)) bundle resource = Ok kwargs ->
  exists d,
    kwargs !! "data" = Some (VDict d) /\
    (has_pk (obj bundle) = false -> dom d ⊆ dom (base_fields fc)) /\
    forall name,
      base_fields fc !! name = None ->
      if has_pk (obj bundle)
      then exists md, model_to_dict bundle resource = Ok md /\ d !! name = md !! name
      else d !! name = None.
Proof.
  intros (kwargs0 & d0 & Hfd & ->)%form_args_Ok.
  eexists. split; [by rewrite lookup_insert_eq|].
  assert (forall name, base_fields fc !! name = None ->
    if has_pk (obj bundle)
    then exists md, model_to_dict bundle resource = Ok md /\
           prepare_related (base_fields fc) d0 !! name = md !! name
    else prepare_related (base_fields fc) d0 !! name = None) as Hnames.
  { intros name Hname. rewrite prepare_related_lookup, Hname.
    unfold form_data in Hfd. destruct (has_pk (obj bundle)).
    - destruct (model_to_dict bundle resource) as [md|] eqn:Hmd; [|done].
      injection Hfd as _ <-. exists md. split; [done|]. unfold update.
      rewrite lookup_union, declared_only_lookup, Hname.
      by destruct (md !! name).
    - injection Hfd as _ <-. by rewrite declared_only_lookup, Hname. }
  split; [|done].
  intros Hpk name [v Hv]%elem_of_dom. apply elem_of_dom.
  destruct (base_fields fc !! name) eqn:Hname; [done|].
  specialize (Hnames _ Hname). rewrite Hpk in Hnames. congruence.
Qed.

End claims.

Section validity.
Import FormValidation.
Implicit Types (fc : FormClass) (bundle : Bundle) (resource : Resource).
Implicit Types (name : string) (d md kwargs : pydict).

Lemma is_valid_unfold fc bundle resource request :
  is_valid (mk (AClass fc)) bundle resource request =
    kwargs ← form_args (mk (AClass fc)) bundle resource;
    if form_is_valid (form_new fc kwargs) then
      md ← model_to_dict bundle resource;
      Ok (∅, mkBundle (Some (update md (cleaned_data (form_new fc kwargs))))
                (obj bundle))
    else Ok (errors (form_new fc kwargs), bundle).
Proof. unfold is_valid. by destruct (form_args _ _ _). Qed.

(** The form that [is_valid] builds is bound: [form_args] always passes a
    dictionary as [data]. *)
Lemma form_args_bound fc bundle resource kwargs :
  form_args (mk (AClass fc)) bundle resource = Ok kwargs ->
  is_bound (form_new fc kwargs) = true.
Proof.
  intros (kwargs0 & d & _ & ->)%form_args_Ok. unfold form_new.
  rewrite lookup_insert_eq. by destruct (full_clean fc _).
Qed.

Lemma form_invalid_errors (form : Form) :
  is_bound form = true -> form_is_valid form = false -> errors form ≠ ∅.
Proof.
  unfold form_is_valid, dict_truthy. intros -> Hv He. rewrite He in Hv.
  by rewrite dom_empty_L, bool_decide_eq_true_2 in Hv.
Qed.

(** X25. When the form that [is_valid] builds is valid and [model_to_dict]
    returns the serialization [md] of the resource (its fields that are not
    read-only, a nested bundle replaced by its [resource_uri]), [is_valid]
    returns the empty mapping and sets [bundle.data] to [md] updated with the
    cleaned data: a key of the cleaned data has its cleaned value, any other
    key its value in [md]. *)
Theorem is_valid_success fc bundle resource request kwargs md :
  form_args (mk (AClass fc)) bundle resource = Ok kwargs ->
  form_is_valid (form_new fc kwargs) = true ->
  model_to_dict bundle resource = Ok md ->
  exists d',
    is_valid (mk (AClass fc)) bundle resource request =
      Ok (∅, mkBundle (Some d') (obj bundle)) /\
    d' = update md (cleaned_data (form_new fc kwargs)) /\
    (forall name,
       d' !! name =
         match cleaned_data (form_new fc kwargs) !! name with
         | Some v => Some v
         | None => md !! name
         end) /\
    serializes bundle (fields resource) (Ok md).
Proof.
  intros Hargs Hvalid Hmd. eexists. split_and!; [|done| |].
  - by rewrite is_valid_unfold, Hargs; simpl; rewrite Hvalid, Hmd.
  - intros name. unfold update. rewrite lookup_union.
    by destruct (cleaned_data _ !! name), (md !! name).
  - rewrite <- Hmd. apply model_to_dict_serializes.
Qed.

End validity.

(** ** The properties on the sample data *)

Section samples.
Import FormValidation Sample.

Lemma related_uri_prepared_witness :
  (exists kwargs d,
     form_args note_validation new_note NoteResource = Ok kwargs /\
     kwargs !! "data" = Some (VDict d) /\
     d !! "category" = Some (VStr (last_segment "/api/v1/category/5/"))) /\
  last_segment "/api/v1/category/5/" =
    PyStr.of_chars (default [] (last (PyStr.split "/" (PyStr.rstrip "/"
      (PyStr.to_chars "/api/v1/category/5/"))))) /\
  last_segment "/api/v1/category/5/" = "5" /\
  (has_pk (obj new_note) = false ->
   data new_note ≫= (.!! "category") = Some (VStr "/api/v1/category/5/")).
Proof.
  apply (related_uri_prepared NoteForm new_note NoteResource "category"
           ModelChoiceField ∅
           (declared_only (base_fields NoteForm) (data_or_empty new_note)));
    vm_compute; reflexivity.
Defined.

Lemma related_models_prepared_witness :
  (exists kwargs d,
     form_args note_validation new_note NoteResource = Ok kwargs /\
     kwargs !! "data" = Some (VDict d) /\
     d !! "tags" = Some (VList (fst <$> note_tags))) /\
  (forall items,
     _prepare_related_value (VList items) =
       VList (_prepare_related_value <$> items)) /\
  (has_pk (obj new_note) = false ->
   data new_note ≫= (.!! "tags") =
     Some (VList ((fun m => VModel m.1 m.2) <$> note_tags))).
Proof.
  apply (related_models_prepared NoteForm new_note NoteResource "tags"
           ModelMultipleChoiceField ∅
           (declared_only (base_fields NoteForm) (data_or_empty new_note)));
    vm_compute; reflexivity.
Defined.

Lemma prepare_related_value_other_witness :
  _prepare_related_value (VDict {["name" := VStr "x"]}) =
    VDict {["name" := VStr "x"]}.
Proof.
  apply prepare_related_value_other.
  - intros items; discriminate.
  - reflexivity.
  - intros d [= <-]. vm_compute. reflexivity.
  - intros s; discriminate.
Defined.


Lemma form_args_declared_only_witness :
  exists d,
    ({["data" := VDict (prepare_related (base_fields NoteForm)
        (declared_only (base_fields NoteForm) (data_or_empty new_note)))]}
       : pydict) !! "data" = Some (VDict d) /\
    (has_pk (obj new_note) = false -> dom d ⊆ dom (base_fields NoteForm)) /\
    forall name,
      base_fields NoteForm !! name = None ->
      if has_pk (obj new_note)
      then exists md,
        model_to_dict new_note NoteResource = Ok md /\ d !! name = md !! name
      else d !! name = None.
Proof.
  apply (form_args_declared_only NoteForm new_note NoteResource).
  vm_compute. reflexivity.
Defined.

Lemma is_valid_success_witness :
  exists d',
    is_valid note_validation new_note NoteResource None =
      Ok (∅, mkBundle (Some d') (obj new_note)) /\
    d' = update note_model_data
           (cleaned_data (form_new NoteForm
              {["data" := VDict (prepare_related (base_fields NoteForm)
                 (declared_only (base_fields NoteForm)
                    (data_or_empty new_note)))]})) /\
    (forall name,
       d' !! name =
         match cleaned_data (form_new NoteForm
              {["data" := VDict (prepare_related (base_fields NoteForm)
                 (declared_only (base_fields NoteForm)
                    (data_or_empty new_note)))]}) !! name with
         | Some v => Some v
         | None => note_model_data !! name
         end) /\
    serializes new_note (fields NoteResource) (Ok note_model_data).
Proof.
  apply (is_valid_success NoteForm new_note NoteResource None);
    vm_compute; reflexivity.
Defined.

(** C1. [is_valid] has an outcome that is neither of the two of its
    docstring, the empty mapping or the errors of the form.  [new_note] is a
    creation with valid data, and the [author] field of [BareResource]
    dehydrates to a bundle whose data has no ['resource_uri']: the subscript
    [value.data['resource_uri']] of line 17 makes [model_to_dict] raise
    [KeyError], the exception comes out of [is_valid] (line 111), and
    [is_valid] returns no mapping at all. *)
Lemma is_valid_outcome_raises :
  model_to_dict new_note BareResource = Raise (KeyError "resource_uri") /\
  is_valid note_validation new_note BareResource None =
    Raise (KeyError "resource_uri") /\
  ~ exists errs bundle',
      is_valid note_validation new_note BareResource None = Ok (errs, bundle').
Proof.
  assert (is_valid note_validation new_note BareResource None =
            Raise (KeyError "resource_uri")) as H
    by (vm_compute; reflexivity).
  split_and!; [by vm_compute|done|].
  intros (errs & bundle' & H'). congruence.
Qed.

(** C2. A valid form does not make [is_valid] return the empty mapping, as
    its docstring has it ("If the form is valid, an empty list (all valid)
    will be returned"): [form_args] returns the keyword arguments for
    [new_note], the form built from them is valid, and on [BareResource] the
    [KeyError] of line 17 comes out of [is_valid] instead; [bundle.data] is
    not set. *)
Lemma is_valid_success_raises :
  exists kwargs,
    form_args note_validation new_note BareResource = Ok kwargs /\
    form_is_valid (form_new NoteForm kwargs) = true /\
    is_valid note_validation new_note BareResource None =
      Raise (KeyError "resource_uri").
Proof.
  exists {["data" := VDict (prepare_related (base_fields NoteForm)
    (declared_only (base_fields NoteForm) (data_or_empty new_note)))]}.
  split_and!; vm_compute; reflexivity.
Qed.

End samples.

(** * The object store: what [form_args] leaves alone *)

Module StoreFacts.
Import Store.
Local Open Scope nat_scope.

Section keeps.
Context (h0 : store).
Implicit Types (h : store) (v d : sval) (o : object).

Lemma keeps_ret {A} (a : A) (Q : A -> Prop) : Q a -> keeps h0 (mret a) Q.
Proof. intros HQ h Hh. done. Qed.

Lemma keeps_raise {A} e (Q : A -> Prop) : keeps h0 (raise e) Q.
Proof. intros h Hh. done. Qed.

Lemma keeps_bind {A B} (c : M A) (f : A -> M B) (Q : A -> Prop) (R : B -> Prop) :
  keeps h0 c Q ->
  (forall a, Q a -> keeps h0 (f a) R) ->
  keeps h0 (c ≫= f) R.
Proof.
  intros Hc Hf h Hh. specialize (Hc h Hh). unfold mbind, M_bind.
  destruct (c h) as [[a h']|e]; [|done].
  destruct Hc as [Hh' HQ]. by apply Hf.
Qed.

Lemma keeps_weaken {A} (c : M A) (Q R : A -> Prop) :
  keeps h0 c Q -> (forall a, Q a -> R a) -> keeps h0 c R.
Proof.
  intros Hc HQR h Hh. specialize (Hc h Hh).
  destruct (c h) as [[a h']|e]; [|done]. destruct Hc. split; auto.
Qed.

Lemma keeps_only_allocates {A} (c : M A) :
  only_allocates c -> keeps h0 c (fun _ => True).
Proof.
  intros Hc h Hh. destruct (c h) as [[a h']|e] eqn:E; [|done].
  split; [|done]. etrans; [exact Hh|]. exact (Hc _ _ _ E).
Qed.

Lemma keeps_get_object v : keeps h0 (get_object v) (fun _ => True).
Proof. intros h Hh. done. Qed.

Lemma keeps_alloc o : keeps h0 (alloc o) (fresh h0).
Proof.
  intros h Hh. simpl. split.
  - etrans; [done|]. by apply prefix_app_r.
  - exists (length h). split; [done|]. by apply prefix_length.
Qed.

Lemma keeps_write a o :
  length h0 <= a -> keeps h0 (write a o) (fun _ => True).
Proof.
  intros Ha h [k ->]. simpl. split; [|done].
  exists (<[a - length h0 := o]> k).
  by rewrite insert_app_r_alt.
Qed.


(** Reading never changes the store. *)
Lemma keeps_as_dict d : keeps h0 (as_dict d) (fun _ => True).
Proof.
  eapply keeps_bind; [apply keeps_get_object|]. intros [[]|] _;
    first [by apply keeps_ret | apply keeps_raise].
Qed.

Lemma keeps_dict_new : keeps h0 dict_new (fresh h0).
Proof. apply keeps_alloc. Qed.

Lemma keeps_dict_contains d key :
  keeps h0 (dict_contains d key) (fun _ => True).
Proof.
  eapply keeps_bind; [apply keeps_as_dict|]. intros m _. by apply keeps_ret.
Qed.

Lemma keeps_dict_getitem d key :
  keeps h0 (dict_getitem d key) (fun _ => True).
Proof.
  eapply keeps_bind; [apply keeps_as_dict|]. intros m _.
  destruct (m !! key); [by apply keeps_ret|apply keeps_raise].
Qed.

(** Writing into a dictionary is allowed when the dictionary is new. *)
Lemma keeps_dict_setitem d key v :
  fresh h0 d -> keeps h0 (dict_setitem d key v) (fun _ => True).
Proof.
  intros (a & -> & Ha). eapply keeps_bind; [apply keeps_as_dict|].
  intros m _. by apply keeps_write.
Qed.

Lemma keeps_dict_update d1 d2 :
  fresh h0 d1 -> keeps h0 (dict_update d1 d2) (fun _ => True).
Proof.
  intros (a & -> & Ha). eapply keeps_bind; [apply keeps_as_dict|].
  intros m1 _. eapply keeps_bind; [apply keeps_as_dict|].
  intros m2 _. by apply keeps_write.
Qed.

Lemma keeps_dict_copy d : keeps h0 (dict_copy d) (fresh h0).
Proof.
  eapply keeps_bind; [apply keeps_as_dict|]. intros m _. apply keeps_alloc.
Qed.

Lemma keeps_truthy v : keeps h0 (truthy v) (fun _ => True).
Proof.
  destruct v; try by apply keeps_ret.
  eapply keeps_bind; [apply keeps_get_object|]. intros [[]|] _;
    first [by apply keeps_ret | apply keeps_raise].
Qed.

Lemma keeps_bundle_data v : keeps h0 (bundle_data v) (fun _ => True).
Proof.
  eapply keeps_bind; [apply keeps_get_object|]. intros [[]|] _;
    first [by apply keeps_ret | apply keeps_raise].
Qed.

Lemma keeps_bundle_obj v : keeps h0 (bundle_obj v) (fun _ => True).
Proof.
  eapply keeps_bind; [apply keeps_get_object|]. intros [[]|] _;
    first [by apply keeps_ret | apply keeps_raise].
Qed.

Lemma keeps_is_bundle v : keeps h0 (is_bundle v) (fun _ => True).
Proof.
  eapply keeps_bind; [apply keeps_get_object|]. intros o _. by apply keeps_ret.
Qed.

Lemma keeps_has_pk v : keeps h0 (has_pk v) (fun _ => True).
Proof.
  eapply keeps_bind; [apply keeps_get_object|]. intros o _. by apply keeps_ret.
Qed.

(** A loop keeps what its body keeps. *)
Lemma keeps_for_items {A} (m : gmap string A) (body : string -> A -> M ()) :
  (forall key x, m !! key = Some x -> keeps h0 (body key x) (fun _ => True)) ->
  keeps h0 (for_items m body) (fun _ => True).
Proof.
  unfold for_items.
  apply (map_fold_weak_ind (fun (r : M ()) (m : gmap string A) =>
    (forall key x, m !! key = Some x -> keeps h0 (body key x) (fun _ => True)) ->
    keeps h0 r (fun _ => True))).
  - intros _. by apply keeps_ret.
  - intros i x m' r Hi IH Hbody. eapply keeps_bind.
    + apply IH. intros key y Hy. apply Hbody.
      rewrite lookup_insert_ne; [done|]. intros ->. by rewrite Hi in Hy.
    + intros _ _. apply Hbody. by rewrite lookup_insert_eq.
Qed.

Lemma keeps_for_each (f : sval -> M sval) items :
  (forall item, keeps h0 (f item) (fun _ => True)) ->
  keeps h0 (for_each f items) (fun _ => True).
Proof.
  intros Hf. induction items as [|item items IH]; simpl.
  - by apply keeps_ret.
  - eapply keeps_bind; [apply Hf|]. intros v _.
    eapply keeps_bind; [apply IH|]. intros vs _. by apply keeps_ret.
Qed.

(** [_prepare_related_value] reads its argument and builds new lists. *)
Lemma keeps_prepare_related_value depth v :
  keeps h0 (_prepare_related_value depth v) (fun _ => True).
Proof.
  revert v. induction depth as [|depth IH]; intros v; simpl.
  - apply keeps_raise.
  - eapply keeps_bind; [apply keeps_get_object|]. intros o _.
    destruct o as [[items|m|pk attrs|bd bo|attrs]|].
    + eapply keeps_bind; [by apply keeps_for_each|]. intros items' _.
      eapply keeps_weaken; [apply keeps_alloc|done].
    + destruct (m !! "id"); by apply keeps_ret.
    + by apply keeps_ret.
    + destruct v; by apply keeps_ret.
    + destruct v; by apply keeps_ret.
    + destruct v; by apply keeps_ret.
Qed.

End keeps.

Section form_args.
Context (bundle : sval) (resource : Resource).

Context (Hdehydrate : dehydrate_reads_only bundle resource).

Lemma keeps_model_to_dict h0 :
  keeps h0 (model_to_dict bundle resource) (fun _ => True).
Proof using Hdehydrate.
  unfold model_to_dict.
  eapply keeps_bind; [apply keeps_dict_new|]. intros data Hdata.
  eapply keeps_bind; [|intros _ _; by apply keeps_ret].
  apply keeps_for_items. intros name field Hfield.
  destruct (readonly field); [by apply keeps_ret|].
  eapply keeps_bind; [apply keeps_only_allocates; by eapply Hdehydrate|].
  intros value _. eapply keeps_bind; [apply keeps_is_bundle|].
  intros nested _. eapply keeps_bind with (Q := fun _ => True).
  - destruct nested; [|by apply keeps_ret].
    eapply keeps_bind; [apply keeps_bundle_data|]. intros d _.
    apply keeps_dict_getitem.
  - intros value' _. by apply keeps_dict_setitem.
Qed.

Lemma keeps_form_args h0 depth self :
  keeps h0 (form_args depth self bundle resource) (fresh h0).
Proof using Hdehydrate.
  unfold form_args.
  eapply keeps_bind with (Q := fun _ => True).
  { destruct (FormValidation.form_class self);
      [by apply keeps_ret|apply keeps_raise]. }
  intros form_class _.
  eapply keeps_bind; [apply keeps_bundle_data|]. intros d _.
  eapply keeps_bind; [apply keeps_truthy|]. intros t _.
  eapply keeps_bind with (Q := fun _ => True).
  { destruct t; [by apply keeps_ret|].
    eapply keeps_weaken; [apply keeps_dict_new|done]. }
  intros bundle_data _.
  eapply keeps_bind; [apply keeps_dict_new|]. intros data Hdata.
  eapply keeps_bind.
  { apply keeps_for_items. intros name field _.
    eapply keeps_bind; [apply keeps_dict_contains|]. intros present _.
    destruct present; [|by apply keeps_ret].
    eapply keeps_bind; [apply keeps_dict_getitem|]. intros v _.
    by apply keeps_dict_setitem. }
  intros _ _.
  eapply keeps_bind; [apply keeps_dict_new|]. intros kwargs Hkwargs.
  eapply keeps_bind; [apply keeps_bundle_obj|]. intros o _.
  eapply keeps_bind; [apply keeps_has_pk|]. intros pk _.
  eapply keeps_bind with (Q := fun _ => True).
  { destruct pk; [|by apply keeps_ret].
    eapply keeps_bind with (Q := fun _ => True).
    { destruct (is_model_form form_class);
        [by apply keeps_dict_setitem|by apply keeps_ret]. }
    intros _ _. eapply keeps_bind; [apply keeps_model_to_dict|].
    intros model_data _. by apply keeps_dict_update. }
  intros _ _.
  eapply keeps_bind; [apply keeps_dict_copy|]. intros data' Hdata'.
  eapply keeps_bind.
  { apply keeps_for_items. intros name field _.
    destruct (is_related field); [|by apply keeps_ret].
    eapply keeps_bind; [apply keeps_dict_contains|]. intros present _.
    destruct present; [|by apply keeps_ret].
    eapply keeps_bind; [apply keeps_dict_getitem|]. intros v _.
    eapply keeps_bind; [apply keeps_prepare_related_value|]. intros v' _.
    by apply keeps_dict_setitem. }
  intros _ _.
  eapply keeps_bind; [by apply keeps_dict_setitem|].
  intros _ _. by apply keeps_ret.
Qed.

End form_args.

(** C10. [form_args] changes none of the objects that exist when it is
    called, provided the [dehydrate] methods of the resource change none:
    when it returns, every object of the store is at its address as it was
    (the bundle with its [data] and [obj] attributes, the dictionary
    [bundle.data] and every list and dictionary in it, [bundle.obj]), and
    the [kwargs] it returns is a new dictionary. What it writes to ([data],
    its copy, [kwargs], the lists of prepared values) it has created. *)
Theorem form_args_frame depth self bundle resource h kwargs h' :
  dehydrate_reads_only bundle resource ->
  form_args depth self bundle resource h = Ok (kwargs, h') ->
  h `prefix_of` h' /\
  (forall a o, h !! a = Some o -> h' !! a = Some o) /\
  (forall v o, object_of h v = Some o -> object_of h' v = Some o) /\
  fresh h kwargs.
Proof.
  intros Hdehydrate Hargs.
  pose proof (keeps_form_args bundle resource Hdehydrate h depth self h) as H.
  rewrite Hargs in H. destruct H as [Hpre Hfresh]; [done|].
  assert (forall a o, h !! a = Some o -> h' !! a = Some o) as Hobj.
  { intros a o Ho. by eapply prefix_lookup_Some. }
  split_and!; [done|done| |done].
  intros [] o Ho; simpl in *; try done. by apply Hobj.
Qed.

End StoreFacts.

Section store_sample.
Import Store StoreFacts Sample.

Lemma stored_note_resource_reads_only :
  dehydrate_reads_only note_ref StoredNoteResource.
Proof.
  apply map_Forall_insert_2; [|apply map_Forall_singleton].
  - intros h a h' [= <- <-]. done.
  - intros h a h' [= <- <-]. rewrite <- (assoc_L (++)). by apply prefix_app_r.
Qed.

Lemma form_args_frame_witness :
  exists kwargs h',
    form_args 8 note_validation note_ref StoredNoteResource note_store
      = Ok (kwargs, h') /\
    note_store `prefix_of` h' /\
    (forall a o, note_store !! a = Some o -> h' !! a = Some o) /\
    (forall v o, object_of note_store v = Some o -> object_of h' v = Some o) /\
    fresh note_store kwargs.
Proof.
  eexists _, _. split; [vm_compute; reflexivity|].
  apply (form_args_frame 8 note_validation note_ref StoredNoteResource).
  - exact stored_note_resource_reads_only.
  - vm_compute. reflexivity.
Defined.

End store_sample.

(** On the sample, the two embeddings of [form_args] agree: the keyword
    arguments built in the store stand for the ones computed on trees. *)
Lemma form_args_sample_agree :
  match Store.form_args 8 Sample.note_validation Sample.note_ref
          Sample.StoredNoteResource Sample.note_store with
  | Ok (kwargs, h') =>
      Store.reify 8 h' kwargs =
        match FormValidation.form_args Sample.note_validation Sample.saved_note
                Sample.NoteResource with
        | Ok kwargs' => Some (VDict kwargs')
        | Raise _ => None
        end
  | Raise _ => False
  end.
Proof. vm_compute. reflexivity. Qed.

(** * More on the string functions *)

Module PyStrMore.
Import PyStr PyStrFacts.
Implicit Types (c a : ascii) (s p t : list ascii).

(** The pieces of a split do not contain the separator. *)
Lemma split_pieces_no_sep c s : Forall (fun piece => c ∉ piece) (split c s).
Proof.
  induction s as [|a s IH]; simpl.
  - repeat constructor. apply not_elem_of_nil.
  - destruct (decide (a = c)) as [->|Hne].
    + constructor; [apply not_elem_of_nil|done].
    + destruct (split c s) as [|piece pieces].
      * repeat constructor. intros Hin. apply list_elem_of_singleton in Hin. by subst.
      * apply Forall_cons in IH as [Hpiece Hpieces].
        constructor; [|done]. rewrite elem_of_cons.
        intros [Heq|Hin]; [by apply Hne|by apply Hpiece].
Qed.

(** A string without the separator is a single piece. *)
Lemma split_no_sep c s : c ∉ s -> split c s = [s].
Proof.
  induction s as [|a s IH]; [done|]. rewrite not_elem_of_cons.
  intros [Hne Hs]. simpl. rewrite decide_False by done. by rewrite IH.
Qed.

(** Splitting distributes over a separator. *)
Lemma split_app_sep c p t : split c (p ++ c :: t) = split c p ++ split c t.
Proof.
  induction p as [|a p IH]; simpl.
  - by rewrite decide_True.
  - destruct (decide (a = c)); [by rewrite IH|]. rewrite IH.
    destruct (split c p) as [|q qs] eqn:E; [by apply split_not_nil in E|done].
Qed.

Lemma last_split_app_sep c p t :
  last (split c (p ++ c :: t)) = last (split c t).
Proof.
  rewrite split_app_sep, last_app.
  by destruct (last_split_is_Some c t) as [x ->].
Qed.

Lemma lstrip_no_sep c s : c ∉ s -> lstrip c s = s.
Proof.
  destruct s as [|a s]; [done|]. rewrite not_elem_of_cons. intros [Hne _].
  simpl. by rewrite decide_False.
Qed.

Lemma rstrip_no_sep c s : c ∉ s -> rstrip c s = s.
Proof.
  intros Hs. unfold rstrip. rewrite lstrip_no_sep.
  - apply reverse_involutive.
  - by rewrite elem_of_reverse.
Qed.

(** Nothing is stripped from the right of a string that ends with a
    non-empty piece. *)
Lemma rstrip_app_no_sep c p t : t ≠ [] -> c ∉ t -> rstrip c (p ++ t) = p ++ t.
Proof.
  intros Ht Hc. induction p as [|a p IH]; simpl.
  - by apply rstrip_no_sep.
  - rewrite rstrip_cons, IH. destruct (p ++ t) eqn:E; [|done].
    by apply app_eq_nil in E as [_ ?].
Qed.

Lemma lstrip_all c s : Forall (fun a => a = c) s -> lstrip c s = [].
Proof.
  induction 1 as [|a s -> _ IH]; [done|]. simpl. by rewrite decide_True.
Qed.

Lemma rstrip_snoc_sep c s : rstrip c (s ++ [c]) = rstrip c s.
Proof.
  unfold rstrip. rewrite reverse_snoc. simpl. by rewrite decide_True.
Qed.

Lemma strip_cons_sep c s : strip c (c :: s) = strip c s.
Proof. unfold strip. simpl. by rewrite decide_True. Qed.

Lemma strip_snoc_sep c s : strip c (s ++ [c]) = strip c s.
Proof.
  unfold strip. rewrite lstrip_snoc. destruct (lstrip c s) as [|b r] eqn:E.
  - by rewrite decide_True.
  - by rewrite rstrip_snoc_sep.
Qed.

Lemma to_chars_of_chars s : to_chars (of_chars s) = s.
Proof. apply String.list_ascii_of_string_of_list_ascii. Qed.

Lemma of_chars_to_chars (s : string) : of_chars (to_chars s) = s.
Proof. apply String.string_of_list_ascii_of_string. Qed.

Lemma to_chars_app (s1 s2 : string) :
  to_chars (s1 +:+ s2) = to_chars s1 ++ to_chars s2.
Proof.
  induction s1 as [|a s1 IH]; [done|]. unfold to_chars in *. simpl.
  by rewrite IH.
Qed.

Lemma rstrip_app_all c s t : Forall (fun a => a = c) t -> rstrip c (s ++ t) = rstrip c s.
Proof.
  induction t as [|a t IH] using rev_ind; intros Ht.
  - by rewrite app_nil_r.
  - apply Forall_app in Ht as [Ht Ha]. apply Forall_singleton in Ha as ->.
    by rewrite app_assoc, rstrip_snoc_sep, IH.
Qed.

(** The piece that the expression selects. *)
Lemma last_segment_chars_rstrip s :
  last_segment_chars s = last (split "/" (rstrip "/" s)).
Proof. apply last_split_rstrip_lstrip. Qed.

Lemma last_segment_chars_no_sep s t :
  last_segment_chars s = Some t -> "/"%char ∉ t.
Proof.
  intros Ht%last_Some_elem_of.
  by eapply (proj1 (Forall_forall _ _) (split_pieces_no_sep _ _)) in Ht.
Qed.

Lemma last_segment_chars_plain s :
  "/"%char ∉ s -> last_segment_chars s = Some s.
Proof.
  intros Hs. unfold last_segment_chars, item_last, strip.
  by rewrite lstrip_no_sep, rstrip_no_sep, split_no_sep.
Qed.

Lemma last_segment_chars_all s :
  Forall (fun a => a = "/"%char) s -> last_segment_chars s = Some [].
Proof.
  intros Hs. unfold last_segment_chars, item_last, strip.
  by rewrite lstrip_all.
Qed.

Lemma last_segment_chars_uri p t trail :
  "/"%char ∉ t -> t ≠ [] -> Forall (fun a => a = "/"%char) trail ->
  last_segment_chars (p ++ "/"%char :: t ++ trail) = Some t.
Proof.
  intros Ht Hne Htrail. rewrite last_segment_chars_rstrip.
  replace (p ++ "/"%char :: t ++ trail) with ((p ++ "/"%char :: t) ++ trail)
    by by rewrite <- app_assoc.
  rewrite rstrip_app_all by done.
  replace (p ++ "/"%char :: t) with ((p ++ ["/"%char]) ++ t)
    by by rewrite <- app_assoc.
  rewrite rstrip_app_no_sep by done. rewrite <- app_assoc. simpl.
  by rewrite last_split_app_sep, split_no_sep.
Qed.

End PyStrMore.

Lemma last_segment_to_chars (s : string) :
  Some (PyStr.to_chars (last_segment s)) =
    PyStr.last_segment_chars (PyStr.to_chars s).
Proof.
  unfold last_segment. rewrite PyStrMore.to_chars_of_chars.
  by destruct (PyStrFacts.last_segment_chars_is_Some (PyStr.to_chars s)) as [t ->].
Qed.

Lemma last_segment_of_chars (s : string) (t : list ascii) :
  PyStr.last_segment_chars (PyStr.to_chars s) = Some t ->
  last_segment s = PyStr.of_chars t.
Proof. unfold last_segment. by intros ->. Qed.

(** * More on the preparation of related values *)

Section uri.
Import FormValidation.

(** X1. The string that [_prepare_related_value] returns for a string never
    contains a slash: it is one piece of the split at the slashes. *)
Theorem prepared_string_no_slash (s : string) :
  exists t,
    _prepare_related_value (VStr s) = VStr t /\
    "/"%char ∉ PyStr.to_chars t.
Proof.
  exists (last_segment s). split; [done|].
  eapply PyStrMore.last_segment_chars_no_sep. symmetry.
  apply last_segment_to_chars.
Qed.

(** X2. A string without a slash, such as a plain primary key, is returned
    as it is. *)
Theorem prepared_string_plain (s : string) :
  "/"%char ∉ PyStr.to_chars s ->
  _prepare_related_value (VStr s) = VStr s.
Proof.
  intros Hs. simpl. f_equal.
  rewrite (last_segment_of_chars s (PyStr.to_chars s)).
  - apply PyStrMore.of_chars_to_chars.
  - by apply PyStrMore.last_segment_chars_plain.
Qed.

(** X3. Preparing a string twice is the same as preparing it once. *)
Theorem prepared_string_idempotent (s : string) :
  _prepare_related_value (_prepare_related_value (VStr s)) =
    _prepare_related_value (VStr s).
Proof.
  simpl. f_equal.
  rewrite (last_segment_of_chars (last_segment s)
             (PyStr.to_chars (last_segment s))).
  - apply PyStrMore.of_chars_to_chars.
  - apply PyStrMore.last_segment_chars_plain.
    eapply PyStrMore.last_segment_chars_no_sep. symmetry.
    apply last_segment_to_chars.
Qed.

(** X4. A resource URI [prefix/id] followed by any number of slashes
    is prepared to [id], when [id] is not empty and has no slash: whatever
    comes before the last slash of the URI proper is dropped. *)
Theorem prepared_uri_id (prefix id trail : string) :
  "/"%char ∉ PyStr.to_chars id ->
  id ≠ "" ->
  Forall (fun a => a = "/"%char) (PyStr.to_chars trail) ->
  _prepare_related_value (VStr (prefix +:+ "/" +:+ id +:+ trail)) = VStr id.
Proof.
  intros Hid Hne Htrail. simpl. f_equal.
  rewrite (last_segment_of_chars _ (PyStr.to_chars id)).
  - apply PyStrMore.of_chars_to_chars.
  - rewrite !PyStrMore.to_chars_app. simpl.
    apply PyStrMore.last_segment_chars_uri; [done| |done].
    intros Hnil. apply Hne. rewrite <- (PyStrMore.of_chars_to_chars id).
    by rewrite Hnil.
Qed.

(** X5. The empty string and a string of slashes only are prepared to the
    empty string: the subscript [[-1]] finds the one empty piece and does not
    raise. *)
Theorem prepared_slashes_empty (s : string) :
  Forall (fun a => a = "/"%char) (PyStr.to_chars s) ->
  _prepare_related_value (VStr s) = VStr "".
Proof.
  intros Hs. simpl. f_equal.
  by rewrite (last_segment_of_chars s []);
    [|apply PyStrMore.last_segment_chars_all].
Qed.

(** The preparation of a list of strings. *)
Lemma prepare_related_value_strings (uris : list string) :
  _prepare_related_value (VList (VStr <$> uris)) =
    VList (VStr <$> (last_segment <$> uris)).
Proof.
  simpl. f_equal. induction uris as [|s uris IH]; [done|]. csimpl.
  by rewrite <- IH.
Qed.

End uri.

Section uri_samples.
Import FormValidation.

Lemma prepared_string_plain_witness :
  _prepare_related_value (VStr "5") = VStr "5".
Proof.
  apply prepared_string_plain. vm_compute.
  intros Hin. apply list_elem_of_singleton in Hin. discriminate.
Defined.

Lemma prepared_uri_id_witness :
  _prepare_related_value (VStr ("/api/v1/category" +:+ "/" +:+ "5" +:+ "/")) =
    VStr "5".
Proof.
  apply prepared_uri_id.
  - vm_compute. intros Hin. apply list_elem_of_singleton in Hin. discriminate.
  - discriminate.
  - vm_compute. by constructor.
Defined.

Lemma prepared_slashes_empty_witness :
  _prepare_related_value (VStr "//") = VStr "".
Proof. apply prepared_slashes_empty. vm_compute. by repeat constructor. Defined.

End uri_samples.

(** * More on [model_to_dict] *)

Section serialization_more.
Implicit Types (bundle : Bundle) (resource : Resource) (md : pydict).

(** The two ways in which the value of a field fails to serialize. *)
Lemma dehydrated_value_Raise (field : ApiField) bundle e :
  dehydrated_value field bundle = Raise e <->
  exists bdata bobj,
    dehydrate field bundle = VBundle bdata bobj /\
    match bdata with
    | Some d => d !! "resource_uri" = None /\ e = KeyError "resource_uri"
    | None => e = TypeError
    end.
Proof.
  unfold dehydrated_value, getitem. split.
  - destruct (dehydrate field bundle) as [| | | | | | |[d|] bobj|]; try done.
    + destruct (d !! "resource_uri") eqn:E; [done|]. intros [= <-].
      by exists (Some d), bobj.
    + intros [= <-]. by exists None, bobj.
  - intros (bdata & bobj & -> & H). destruct bdata as [d|]; simpl.
    + destruct H as [Hd ->]. by rewrite Hd.
    + by subst.
Qed.

(** X6. The dictionary that [model_to_dict] returns has one key for each
    field of the resource that is not read-only, and no other key. *)
Theorem model_to_dict_keys bundle resource md :
  model_to_dict bundle resource = Ok md ->
  forall name,
    name ∈ dom md <->
    exists field, fields resource !! name = Some field /\ readonly field = false.
Proof.
  intros Hmd name. pose proof (model_to_dict_lookup _ _ _ name Hmd) as H.
  rewrite elem_of_dom. destruct (fields resource !! name) as [field|].
  - destruct (readonly field) eqn:Hro.
    + rewrite H. split; [by intros [? ?]|]. intros (f & [= <-] & ?). congruence.
    + destruct H as (v & _ & ->). split; [eauto|done].
  - rewrite H. split; [by intros [? ?]|]. by intros (f & ? & _).
Qed.

(** X7. With [dehydrate] methods that return, [model_to_dict] raises exactly
    when some field that is not read-only dehydrates to a bundle without a
    [resource_uri]: one whose [data] is [None] or has no such key. *)
Theorem model_to_dict_raises_iff bundle resource :
  (exists e, model_to_dict bundle resource = Raise e) <->
  exists name field bdata bobj,
    fields resource !! name = Some field /\ readonly field = false /\
    dehydrate field bundle = VBundle bdata bobj /\
    bdata ≫= (.!! "resource_uri") = None.
Proof.
  split.
  - intros [e (name & field & Hf & Hro & He)%model_to_dict_Raise].
    apply dehydrated_value_Raise in He as (bdata & bobj & Hd & Hb).
    exists name, field, bdata, bobj. split_and!; [done..|].
    destruct bdata as [d|]; [by destruct Hb|done].
  - intros (name & field & bdata & bobj & Hf & Hro & Hd & Hb).
    destruct (model_to_dict bundle resource) as [md|e] eqn:Hmd; [|eauto].
    pose proof (model_to_dict_lookup _ _ _ name Hmd) as H.
    rewrite Hf, Hro in H. destruct H as (v & Hv & _).
    unfold dehydrated_value, getitem in Hv. rewrite Hd in Hv.
    destruct bdata as [d|]; simpl in *; [|done]. by rewrite Hb in Hv.
Qed.

(** X8. The only exceptions that [model_to_dict] raises itself (its
    [dehydrate] methods are taken to return) are those of
    [value.data['resource_uri']]: the [KeyError] for ['resource_uri'] and the
    [TypeError] of subscripting [None]. *)
Theorem model_to_dict_exceptions bundle resource e :
  model_to_dict bundle resource = Raise e ->
  e = KeyError "resource_uri" \/ e = TypeError.
Proof.
  intros (name & field & _ & _ & He)%model_to_dict_Raise.
  apply dehydrated_value_Raise in He as ([d|] & bobj & _ & Hb).
  - left. by destruct Hb.
  - by right.
Qed.

(** X9. A resource whose fields are all read-only, and so a resource
    without fields, serializes to the empty dictionary. *)
Theorem model_to_dict_readonly bundle resource :
  (forall name field, fields resource !! name = Some field -> readonly field = true) ->
  model_to_dict bundle resource = Ok ∅.
Proof.
  intros Hall. destruct (model_to_dict bundle resource) as [md|e] eqn:Hmd.
  - f_equal. apply map_eq. intros name. rewrite lookup_empty.
    pose proof (model_to_dict_lookup _ _ _ name Hmd) as H.
    destruct (fields resource !! name) as [field|] eqn:Hf; [|done].
    by rewrite (Hall _ _ Hf) in H.
  - apply model_to_dict_Raise in Hmd as (name & field & Hf & Hro & _).
    rewrite (Hall _ _ Hf) in Hro. done.
Qed.

End serialization_more.

Section serialization_samples.
Import Sample.

Lemma model_to_dict_keys_witness :
  "author" ∈ dom note_model_data <->
  exists field,
    fields NoteResource !! "author" = Some field /\ readonly field = false.
Proof.
  apply (model_to_dict_keys saved_note NoteResource note_model_data).
  vm_compute. reflexivity.
Defined.

Lemma model_to_dict_exceptions_witness :
  (KeyError "resource_uri" = KeyError "resource_uri" \/
   KeyError "resource_uri" = TypeError).
Proof.
  apply (model_to_dict_exceptions new_note BareResource). vm_compute. reflexivity.
Defined.

Lemma model_to_dict_readonly_witness :
  model_to_dict new_note
    (mkResource {["id" := mkApiField true (fun _ => VInt 7)]}) = Ok ∅.
Proof.
  apply model_to_dict_readonly. simpl. intros name field Hf.
  apply lookup_singleton_Some in Hf as [_ <-]. reflexivity.
Defined.

End serialization_samples.

(** * More on [form_args] and [is_valid] *)

Section form_args_more.
Import FormValidation.
Implicit Types (fc : FormClass) (bundle : Bundle) (resource : Resource).
Implicit Types (name : string) (d md kwargs : pydict).

(** The second loop changes values only: it neither adds nor removes a key. *)
Lemma prepare_related_dom (bf : gmap string FormField) d :
  dom (prepare_related bf d) = dom d.
Proof.
  apply set_eq. intros name. rewrite !elem_of_dom, prepare_related_lookup.
  destruct (bf !! name) as [field|]; [|done].
  destruct (is_related field); [|done]. by rewrite fmap_is_Some.
Qed.

Lemma declared_only_dom (bf : gmap string FormField) d name :
  name ∈ dom (declared_only bf d) <-> name ∈ dom bf /\ name ∈ dom d.
Proof.
  rewrite !elem_of_dom, declared_only_lookup.
  destruct (bf !! name) as [field|]; split.
  - intros Hd. split; [by exists field|done].
  - by intros [_ Hd].
  - by intros Hn%is_Some_None.
  - by intros [Hn%is_Some_None _].
Qed.

(** X10. In a creation (the object has no [pk]) the keyword arguments that
    [form_args] returns have the one key ['data'], the keys of the data are
    the declared fields of the form that [bundle.data] has, and the resource
    plays no part: [form_args] returns the same for every resource. *)
Theorem form_args_create fc bundle resource kwargs :
  has_pk (obj bundle) = false ->
  form_args (mk (AClass fc)) bundle resource = Ok kwargs ->
  exists d,
    kwargs = {["data" := VDict d]} /\
    (forall name,
       name ∈ dom d <->
       name ∈ dom (base_fields fc) /\ is_Some (data bundle ≫= (.!! name))) /\
    forall resource',
      form_args (mk (AClass fc)) bundle resource' = Ok kwargs.
Proof.
  intros Hpk Hargs.
  rewrite form_args_unfold, form_data_create in Hargs by done.
  simpl in Hargs. injection Hargs as <-. eexists. split_and!; [done| |].
  - intros name. rewrite prepare_related_dom, declared_only_dom.
    by rewrite (elem_of_dom (data_or_empty bundle)), data_or_empty_lookup.
  - intros resource'. by rewrite form_args_unfold, form_data_create.
Qed.

(** X11. In an update (the object has a [pk]) an exception of
    [model_to_dict] comes out of [form_args]: line 89 is reached whatever
    [bundle.data] holds, and the exception is raised there. *)
Theorem form_args_propagates fc bundle resource e :
  has_pk (obj bundle) = true ->
  model_to_dict bundle resource = Raise e ->
  form_args (mk (AClass fc)) bundle resource = Raise e.
Proof.
  intros Hpk Hmd. rewrite form_args_unfold. unfold form_data.
  by rewrite Hpk, Hmd.
Qed.

(** X12. The keyword arguments that [form_args] returns have the key
    ['data'], the key ['instance'] when the object has a [pk] and the form
    class is a [ModelForm], and no other key. *)
Theorem form_args_keys fc bundle resource kwargs :
  form_args (mk (AClass fc)) bundle resource = Ok kwargs ->
  dom kwargs =
    if has_pk (obj bundle) && is_model_form fc
    then {["instance"; "data"]} else {["data"]}.
Proof.
  intros (kwargs0 & d0 & Hfd & ->)%form_args_Ok. rewrite dom_insert_L.
  unfold form_data in Hfd. destruct (has_pk (obj bundle)); simpl.
  - destruct (model_to_dict bundle resource) as [md|]; simpl in Hfd; [|done].
    injection Hfd as <- _. destruct (is_model_form fc).
    + rewrite dom_insert_L, dom_empty_L. set_solver.
    + rewrite dom_empty_L. set_solver.
  - injection Hfd as <- _. rewrite dom_empty_L. set_solver.
Qed.

(** X13. The value of a declared field that is not a related field reaches
    the form as it is, be it a URI, a list or a model instance: in a creation
    it is the value of [bundle.data], if there is one. *)
Theorem form_args_plain_field fc bundle resource name field :
  base_fields fc !! name = Some field ->
  is_related field = false ->
  has_pk (obj bundle) = false ->
  exists d,
    form_args (mk (AClass fc)) bundle resource = Ok {["data" := VDict d]} /\
    d !! name = data bundle ≫= (.!! name).
Proof.
  intros Hf Hrel Hpk. eexists. split.
  - by rewrite form_args_unfold, form_data_create.
  - by rewrite prepare_related_lookup, Hf, Hrel, declared_only_lookup, Hf,
      data_or_empty_lookup.
Qed.

(** X14. When [bundle.data] is [None] or empty and the object has no [pk],
    the form is given an empty dictionary as data: [bundle.data or {}] makes
    up for the missing data and nothing is raised. *)
Theorem form_args_no_data fc bundle resource :
  data bundle = None \/ data bundle = Some ∅ ->
  has_pk (obj bundle) = false ->
  form_args (mk (AClass fc)) bundle resource = Ok {["data" := VDict ∅]}.
Proof.
  intros Hdata Hpk. rewrite form_args_unfold, form_data_create by done.
  cbn -[prepare_related declared_only data_or_empty].
  assert (prepare_related (base_fields fc)
            (declared_only (base_fields fc) (data_or_empty bundle)) = ∅) as ->;
    [|done].
  apply map_eq. intros name.
  rewrite prepare_related_lookup, declared_only_lookup, data_or_empty_lookup,
    lookup_empty.
  assert (data bundle ≫= (.!! name) = None) as ->
    by by destruct Hdata as [-> | ->].
  destruct (base_fields fc !! name) as [field|]; [|done].
  by destruct (is_related field).
Qed.

(** X15. A related field that is sent as a list of resource URIs, the usual
    way to send a many-to-many relation: in a creation the form receives the
    list of the last segments of the URIs, in the same order. *)
Theorem form_args_uri_list fc bundle resource name field d0
    (uris : list string) :
  base_fields fc !! name = Some field ->
  is_related field = true ->
  has_pk (obj bundle) = false ->
  data bundle = Some d0 ->
  d0 !! name = Some (VList (VStr <$> uris)) ->
  exists d,
    form_args (mk (AClass fc)) bundle resource = Ok {["data" := VDict d]} /\
    d !! name = Some (VList (VStr <$> (last_segment <$> uris))).
Proof.
  intros Hf Hrel Hpk Hdata Hname. eexists. split.
  - by rewrite form_args_unfold, form_data_create.
  - rewrite prepare_related_lookup, Hf, Hrel, declared_only_lookup, Hf,
      data_or_empty_lookup, Hdata.
    simpl. rewrite Hname. simpl. f_equal. apply prepare_related_value_strings.
Qed.

End form_args_more.

Section is_valid_more.
Import FormValidation.
Implicit Types (fc : FormClass) (bundle : Bundle) (resource : Resource).
Implicit Types (name : string) (d md kwargs : pydict).

(** X16. In a creation the resource is consulted only if the form is valid:
    when the form built from the bundle is not valid, [is_valid] returns its
    errors and leaves the bundle as it is, for every resource, also one that
    [model_to_dict] cannot serialize. *)
Theorem is_valid_create_errors fc bundle resource request kwargs :
  has_pk (obj bundle) = false ->
  form_args (mk (AClass fc)) bundle resource = Ok kwargs ->
  form_is_valid (form_new fc kwargs) = false ->
  forall resource',
    is_valid (mk (AClass fc)) bundle resource' request =
      Ok (errors (form_new fc kwargs), bundle).
Proof.
  intros Hpk Hargs Hvalid resource'. rewrite is_valid_unfold.
  rewrite form_args_unfold, form_data_create in Hargs |- * by done.
  simpl in *. injection Hargs as <-. by rewrite Hvalid.
Qed.

(** X18. When [is_valid] returns the empty mapping, the keys of the new
    [bundle.data] are the keys of the cleaned data and the fields of the
    resource that are not read-only: a key of the data that was sent is
    dropped unless it is one of these. *)
Theorem is_valid_new_data_keys fc bundle resource request bundle' :
  is_valid (mk (AClass fc)) bundle resource request = Ok (∅, bundle') ->
  exists kwargs d',
    form_args (mk (AClass fc)) bundle resource = Ok kwargs /\
    data bundle' = Some d' /\
    forall name,
      name ∈ dom d' <->
      name ∈ dom (cleaned_data (form_new fc kwargs)) \/
      exists field,
        fields resource !! name = Some field /\ readonly field = false.
Proof.
  rewrite is_valid_unfold.
  destruct (form_args _ bundle resource) as [kwargs|e] eqn:Hargs; simpl; [|done].
  destruct (form_is_valid (form_new fc kwargs)) eqn:Hvalid.
  - destruct (model_to_dict bundle resource) as [md|e] eqn:Hmd; simpl; [|done].
    intros [= <-]. eexists kwargs, _. split_and!; [done..|].
    intros name. unfold update. rewrite dom_union, elem_of_union.
    pose proof (model_to_dict_lookup _ _ _ name Hmd) as H.
    rewrite (elem_of_dom md).
    destruct (fields resource !! name) as [field|].
    + destruct (readonly field) eqn:Hro.
      * rewrite H. split; intros [?|Hx]; auto.
        -- by destruct Hx.
        -- destruct Hx as (f & [= <-] & ?). congruence.
      * destruct H as (v & _ & ->). split; intros _; right; eauto.
    + rewrite H. split; intros [?|Hx]; auto.
      * by destruct Hx.
      * by destruct Hx as (f & ? & _).
  - intros [= Herrs _]. exfalso.
    eapply form_invalid_errors; [|done..]. by eapply form_args_bound.
Qed.

(** X19. An exception of [model_to_dict] comes out of [is_valid] wherever
    [model_to_dict] is called: in an update (the object has a [pk]) at line
    89, before a form is built, and otherwise at line 111, when the form
    built from the keyword arguments is valid. *)
Theorem is_valid_propagates fc bundle resource request e :
  model_to_dict bundle resource = Raise e ->
  (has_pk (obj bundle) = true \/
   exists kwargs,
     form_args (mk (AClass fc)) bundle resource = Ok kwargs /\
     form_is_valid (form_new fc kwargs) = true) ->
  is_valid (mk (AClass fc)) bundle resource request = Raise e.
Proof.
  intros Hmd Hcall. rewrite is_valid_unfold.
  destruct Hcall as [Hpk|(kwargs & Hargs & Hvalid)].
  - rewrite form_args_unfold. unfold form_data. by rewrite Hpk, Hmd.
  - rewrite Hargs. simpl. by rewrite Hvalid, Hmd.
Qed.

End is_valid_more.

Section form_args_samples.
Import FormValidation Sample.

Lemma form_args_create_witness :
  exists d,
    ({["data" := VDict (prepare_related (base_fields NoteForm)
        (declared_only (base_fields NoteForm) (data_or_empty new_note)))]}
       : pydict) = {["data" := VDict d]} /\
    (forall name,
       name ∈ dom d <->
       name ∈ dom (base_fields NoteForm) /\
       is_Some (data new_note ≫= (.!! name))) /\
    forall resource',
      form_args note_validation new_note resource' =
        Ok {["data" := VDict (prepare_related (base_fields NoteForm)
              (declared_only (base_fields NoteForm) (data_or_empty new_note)))]}.
Proof.
  apply (form_args_create NoteForm new_note BareResource); reflexivity.
Defined.

Lemma form_args_propagates_witness :
  form_args note_validation saved_note BareResource =
    Raise (KeyError "resource_uri").
Proof.
  apply (form_args_propagates NoteForm saved_note BareResource);
    vm_compute; reflexivity.
Defined.

Lemma form_args_keys_witness :
  dom (<["data" := VDict (prepare_related (base_fields NoteForm)
         (update (declared_only (base_fields NoteForm) (data_or_empty saved_note))
            note_model_data))]> ({["instance" := obj saved_note]} : pydict)) =
    if has_pk (obj saved_note) && is_model_form NoteForm
    then {["instance"; "data"]} else {["data"]}.
Proof.
  apply (form_args_keys NoteForm saved_note NoteResource).
  vm_compute. reflexivity.
Defined.

Lemma form_args_plain_field_witness :
  exists d,
    form_args note_validation new_note NoteResource = Ok {["data" := VDict d]} /\
    d !! "title" = data new_note ≫= (.!! "title").
Proof.
  apply (form_args_plain_field NoteForm new_note NoteResource "title" PlainField);
    reflexivity.
Defined.

Lemma form_args_uri_list_witness :
  exists d,
    form_args note_validation
      (mkBundle
         (Some {["tags" := VList (VStr <$> ["/api/v1/tag/1/"; "/api/v1/tag/2/"])]})
         VNone)
      NoteResource = Ok {["data" := VDict d]} /\
    d !! "tags" =
      Some (VList (VStr <$> (last_segment <$> ["/api/v1/tag/1/"; "/api/v1/tag/2/"]))).
Proof.
  apply (form_args_uri_list NoteForm _ NoteResource "tags"
           ModelMultipleChoiceField
           {["tags" := VList (VStr <$> ["/api/v1/tag/1/"; "/api/v1/tag/2/"])]});
    reflexivity.
Defined.

Lemma form_args_no_data_witness :
  form_args note_validation (mkBundle None VNone) NoteResource =
    Ok {["data" := VDict ∅]}.
Proof.
  apply (form_args_no_data NoteForm (mkBundle None VNone) NoteResource).
  - by left.
  - reflexivity.
Defined.

Lemma is_valid_create_errors_witness :
  is_valid note_validation untitled_note BareResource None =
    Ok (errors (form_new NoteForm
          {["data" := VDict (prepare_related (base_fields NoteForm)
             (declared_only (base_fields NoteForm)
                (data_or_empty untitled_note)))]}),
        untitled_note).
Proof.
  apply (is_valid_create_errors NoteForm untitled_note NoteResource None);
    vm_compute; reflexivity.
Defined.

Lemma is_valid_propagates_witness :
  is_valid note_validation saved_note BareResource None =
    Raise (KeyError "resource_uri").
Proof.
  apply (is_valid_propagates NoteForm saved_note BareResource None).
  - vm_compute. reflexivity.
  - left. reflexivity.
Defined.

Lemma is_valid_new_data_keys_witness :
  exists kwargs d',
    form_args note_validation new_note NoteResource = Ok kwargs /\
    data (mkBundle (Some (update note_model_data
         (cleaned_data (form_new NoteForm
            {["data" := VDict (prepare_related (base_fields NoteForm)
               (declared_only (base_fields NoteForm)
                  (data_or_empty new_note)))]})))) VNone) = Some d' /\
    forall name,
      name ∈ dom d' <->
      name ∈ dom (cleaned_data (form_new NoteForm kwargs)) \/
      exists field,
        fields NoteResource !! name = Some field /\ readonly field = false.
Proof.
  apply (is_valid_new_data_keys NoteForm new_note NoteResource None).
  vm_compute. reflexivity.
Defined.

End form_args_samples.

(** * More on the object store *)

Module StoreMore.
Import Store StoreFacts.
Local Open Scope nat_scope.

Section prepare.
Implicit Types (h : store) (v : sval) (items : list sval).

Lemma prepare_related_value_only_allocates depth v :
  only_allocates (_prepare_related_value depth v).
Proof.
  intros h v' h' Hv.
  pose proof (keeps_prepare_related_value h depth v h) as H.
  rewrite Hv in H. by apply H.
Qed.


Lemma for_each_Ok (f : sval -> M sval) item items h vs h' :
  for_each f (item :: items) h = Ok (vs, h') <->
  exists v h1 vs',
    f item h = Ok (v, h1) /\ for_each f items h1 = Ok (vs', h') /\
    vs = v :: vs'.
Proof.
  simpl. unfold mbind, M_bind. destruct (f item h) as [[v h1]|e].
  - destruct (for_each f items h1) as [[vs' h2]|e] eqn:Hrest.
    + split.
      * intros [= <- <-]. by exists v, h1, vs'.
      * intros (v0 & h0 & vs0 & Hv & Hr & ->). injection Hv as <- <-.
        rewrite Hrest in Hr. by injection Hr as <- <-.
    + split; [done|]. intros (v0 & h0 & vs0 & Hv & Hr & _).
      injection Hv as <- <-. by rewrite Hrest in Hr.
  - split; [done|]. by intros (v0 & h0 & vs0 & Hv & _).
Qed.


(** An exception of the list comprehension is the exception of an item. *)
Lemma for_each_Raise (f : sval -> M sval) items h e :
  for_each f items h = Raise e ->
  exists item h1, item ∈ items /\ f item h1 = Raise e.
Proof.
  revert h. induction items as [|item items IH]; intros h; [done|].
  simpl. unfold mbind, M_bind. destruct (f item h) as [[v h1]|e'] eqn:Hitem.
  - destruct (for_each f items h1) as [[vs h2]|e'] eqn:Hrest; [done|].
    intros [= ->]. destruct (IH _ Hrest) as (item' & h' & Hin & He).
    exists item', h'. split; [by right|done].
  - intros [= ->]. exists item, h. split; [by left|done].
Qed.

(** The list comprehension raises when one item raises in every store that
    the items before it can leave. *)
Lemma for_each_raises (f : sval -> M sval) items x h :
  (forall item, only_allocates (f item)) ->
  x ∈ items ->
  (forall h1, h `prefix_of` h1 -> exists e, f x h1 = Raise e) ->
  exists e, for_each f items h = Raise e.
Proof.
  intros Hf. revert h. induction items as [|item items IH]; intros h Hin Hx.
  - by apply elem_of_nil in Hin.
  - simpl. unfold mbind, M_bind.
    destruct (f item h) as [[v h1]|e] eqn:Hitem; [|eauto].
    apply elem_of_cons in Hin as [->|Hin].
    + destruct (Hx h) as [e He]; [done|]. congruence.
    + destruct (IH h1 Hin) as [e He].
      * intros h2 Hh2. apply Hx. etrans; [|done]. by eapply Hf.
      * rewrite He. eauto.
Qed.

(** The recursion limit is the only exception of
    [_prepare_related_value]. *)
Lemma prepare_related_value_Raise depth v h e :
  _prepare_related_value depth v h = Raise e -> e = RuntimeError.
Proof.
  revert v h. induction depth as [|depth IH]; intros v h; simpl.
  - by intros [= <-].
  - unfold mbind, M_bind, get_object.
    destruct (object_of h v) as [[items|m|pk attrs|bd bo|attrs]|].
    + destruct (for_each (_prepare_related_value depth) items h)
        as [[vs h1]|e'] eqn:Hitems; [done|].
      intros [= ->].
      apply for_each_Raise in Hitems as (item & h1 & _ & He). by eapply IH.
    + by destruct (m !! "id").
    + done.
    + by destruct v.
    + by destruct v.
    + by destruct v.
Qed.

End prepare.


(** X21. A list that contains itself cannot be prepared: the recursion has
    no end, and whatever the bound on its depth is, the call ends with the
    [RuntimeError] of the exhausted recursion limit. *)
Theorem store_prepare_cyclic depth a items h :
  h !! a = Some (OList items) ->
  SRef a ∈ items ->
  _prepare_related_value depth (SRef a) h = Raise RuntimeError.
Proof.
  intros Ha Hin.
  assert (exists e, _prepare_related_value depth (SRef a) h = Raise e)
    as [e He]; [|by rewrite He, (prepare_related_value_Raise _ _ _ _ He)].
  revert h Ha. induction depth as [|depth IH]; intros h Ha; [by eexists|].
  simpl. unfold mbind, M_bind, get_object. simpl. rewrite Ha.
  destruct (for_each_raises (_prepare_related_value depth) items (SRef a) h)
    as [e He]; [|done| |rewrite He; eauto].
  - intros item. apply prepare_related_value_only_allocates.
  - intros h1 Hh1. apply IH. by eapply prefix_lookup_Some.
Qed.


End StoreMore.

Section store_more_samples.
Import Store StoreFacts StoreMore Sample.


Lemma store_prepare_cyclic_witness :
  _prepare_related_value 5 (SRef 0) [OList [SInt 1; SRef 0]] =
    Raise RuntimeError.
Proof.
  apply (store_prepare_cyclic 5 0 [SInt 1; SRef 0]).
  - reflexivity.
  - apply elem_of_cons. right. apply elem_of_cons. by left.
Defined.


End store_more_samples.

(** * The two embeddings of [_prepare_related_value] *)

Module Refinement.
Import Store StoreFacts StoreMore.
Local Open Scope nat_scope.

Section reify.
Implicit Types (h : store) (v : sval) (t : val).

(** [reify_items], key by key. *)
Lemma reify_items_lookup {A B} (f : A -> option B) (m : gmap string A) :
  match reify_items f m with
  | Some d =>
      forall k,
        match m !! k with
        | Some x => exists y, f x = Some y /\ d !! k = Some y
        | None => d !! k = None
        end
  | None => exists k x, m !! k = Some x /\ f x = None
  end.
Proof.
  unfold reify_items.
  apply (map_fold_weak_ind (fun (r : option (gmap string B)) m =>
    match r with
    | Some d =>
        forall k,
          match m !! k with
          | Some x => exists y, f x = Some y /\ d !! k = Some y
          | None => d !! k = None
          end
    | None => exists k x, m !! k = Some x /\ f x = None
    end)).
  - intros k. by rewrite !lookup_empty.
  - intros i x m' [d|] Hi IH; simpl.
    + destruct (f x) as [y|] eqn:Hx; simpl.
      * intros k. destruct (decide (k = i)) as [->|Hne].
        -- rewrite !lookup_insert_eq. eauto.
        -- rewrite !lookup_insert_ne by done. apply IH.
      * exists i, x. by rewrite lookup_insert_eq.
    + destruct IH as (k & x' & Hk & Hx'). exists k, x'. split; [|done].
      rewrite lookup_insert_ne; [done|]. intros ->. by rewrite Hi in Hk.
Qed.

Lemma reify_items_Some {A B} (f : A -> option B) (m : gmap string A) d :
  reify_items f m = Some d <->
  forall k,
    match m !! k with
    | Some x => exists y, f x = Some y /\ d !! k = Some y
    | None => d !! k = None
    end.
Proof.
  pose proof (reify_items_lookup f m) as H. split.
  - intros Hd. by rewrite Hd in H.
  - intros Hd. destruct (reify_items f m) as [d'|].
    + f_equal. apply map_eq. intros k. specialize (H k). specialize (Hd k).
      destruct (m !! k) as [x|]; [|congruence].
      destruct H as (y & Hy & ->), Hd as (y' & Hy' & ->). congruence.
    + destruct H as (k & x & Hk & Hx). specialize (Hd k). rewrite Hk in Hd.
      destruct Hd as (y & Hy & _). congruence.
Qed.

Lemma reify_items_mono {A B} (f g : A -> option B) (m : gmap string A) d :
  (forall x y, f x = Some y -> g x = Some y) ->
  reify_items f m = Some d -> reify_items g m = Some d.
Proof.
  intros Hfg. rewrite !reify_items_Some. intros Hd k. specialize (Hd k).
  destruct (m !! k) as [x|]; [|done]. destruct Hd as (y & Hy & Hk). eauto.
Qed.

Lemma mapM_mono {A B} (f g : A -> option B) (l : list A) k :
  (forall x y, f x = Some y -> g x = Some y) ->
  mapM f l = Some k -> mapM g l = Some k.
Proof.
  intros Hfg. rewrite !mapM_Some. intros Hl.
  eapply Forall2_impl; [exact Hl|]. auto.
Qed.

(** A value that is not a reference stands for itself. *)
Lemma reify_immediate n h v :
  (forall a, v ≠ SRef a) ->
  reify n h v =
    Some (match v with
          | SNone => VNone
          | SBool b => VBool b
          | SInt z => VInt z
          | SStr s => VStr s
          | SRef _ => VNone
          end).
Proof. intros Hv. destruct v, n; try done; by destruct (Hv a). Qed.

(** Reading through a reference, in a store and to a depth that give at
    least as much. *)
Lemma reify_ref_mono n h n' h' a t :
  (forall v t, reify n h v = Some t -> reify n' h' v = Some t) ->
  (forall o, h !! a = Some o -> h' !! a = Some o) ->
  reify (S n) h (SRef a) = Some t -> reify (S n') h' (SRef a) = Some t.
Proof.
  intros Hv Ha. simpl. destruct (h !! a) as [o|] eqn:Ho; [|done].
  rewrite (Ha _ eq_refl). destruct o as [items|m|pk attrs|bd bo|attrs].
  - intros (ts & Hts & ->)%fmap_Some. by rewrite (mapM_mono _ _ _ _ Hv Hts).
  - intros (d & Hd & ->)%fmap_Some. by rewrite (reify_items_mono _ _ _ _ Hv Hd).
  - destruct (reify n h pk) as [pk'|] eqn:Hpk; simpl; [|done].
    destruct (reify_items (reify n h) attrs) as [attrs'|] eqn:Hattrs;
      simpl; [|done].
    intros [= <-].
    by rewrite (Hv _ _ Hpk), (reify_items_mono _ _ _ _ Hv Hattrs).
  - destruct (reify n h bo) as [bo'|] eqn:Hbo; simpl; [|done].
    rewrite (Hv _ _ Hbo). simpl. clear Hbo. destruct bd; try done;
      (destruct (reify n h _) as [d|] eqn:Hd; simpl; [|done];
       by rewrite (Hv _ _ Hd)).
  - intros (d & Hd & ->)%fmap_Some. by rewrite (reify_items_mono _ _ _ _ Hv Hd).
Qed.

(** New objects do not change what a value stands for. *)
Lemma reify_prefix n h h' v t :
  h `prefix_of` h' -> reify n h v = Some t -> reify n h' v = Some t.
Proof.
  intros Hh. revert v t. induction n as [|n IH]; intros v t.
  - by destruct v.
  - destruct v as [| | | |a]; try done. apply reify_ref_mono; [done|].
    intros o Ho. by eapply prefix_lookup_Some.
Qed.

(** Nor does a greater depth. *)
Lemma reify_S n h v t :
  reify n h v = Some t -> reify (S n) h v = Some t.
Proof.
  revert v t. induction n as [|n IH]; intros v t.
  - by destruct v.
  - destruct v as [| | | |a]; try done. by apply reify_ref_mono.
Qed.

(** The shape of what a reference stands for. *)
Lemma reify_ref_shape n h a o t :
  h !! a = Some o ->
  reify (S n) h (SRef a) = Some t ->
  match o with
  | OList items => exists ts, mapM (reify n h) items = Some ts /\ t = VList ts
  | ODict m => exists d, reify_items (reify n h) m = Some d /\ t = VDict d
  | OModel pk _ => exists pk' attrs', reify n h pk = Some pk' /\ t = VModel pk' attrs'
  | OBundle _ _ => exists bd' bo', t = VBundle bd' bo'
  | OObject _ => exists attrs', t = VObject attrs'
  end.
Proof.
  intros Ho. simpl. rewrite Ho. destruct o as [items|m|pk attrs|bd bo|attrs].
  - intros (ts & Hts & ->)%fmap_Some. eauto.
  - intros (d & Hd & ->)%fmap_Some. eauto.
  - destruct (reify n h pk) as [pk'|]; simpl; [|done].
    destruct (reify_items (reify n h) attrs) as [attrs'|]; simpl; [|done].
    intros [= <-]. eauto.
  - destruct (reify n h bo) as [bo'|]; simpl; [|done].
    destruct bd; try (intros [= <-]; by eauto);
      (destruct (reify n h _) as [[]|]; simpl; try done;
       intros [= <-]; by eauto).
  - intros (d & Hd & ->)%fmap_Some. eauto.
Qed.

End reify.

Section refinement.
Implicit Types (h : store) (v : sval) (t : val).

(** The list comprehension, item by item. *)
Lemma for_each_refines n k h (items : list sval) (ts : list val) :
  (forall v t h,
     reify n h v = Some t ->
     exists v' h',
       _prepare_related_value k v h = Ok (v', h') /\ h `prefix_of` h' /\
       reify n h' v' = Some (FormValidation._prepare_related_value t)) ->
  mapM (reify n h) items = Some ts ->
  exists vs h',
    for_each (_prepare_related_value k) items h = Ok (vs, h') /\
    h `prefix_of` h' /\
    mapM (reify n h') vs = Some (FormValidation._prepare_related_value <$> ts).
Proof.
  intros Hk. revert h ts. induction items as [|item items IH]; intros h ts.
  - intros [= <-]. by exists [], h.
  - intros Hts%mapM_Some_1. apply Forall2_cons_inv_l in Hts
      as (t & ts' & Ht & Hts' & ->).
    destruct (Hk _ _ _ Ht) as (v' & h1 & Hv' & Hh1 & Hr1).
    destruct (IH h1 ts') as (vs & h2 & Hvs & Hh2 & Hr2).
    { apply mapM_Some_2. eapply Forall2_impl; [done|].
      intros x y. by apply reify_prefix. }
    exists (v' :: vs), h2. split_and!.
    + apply for_each_Ok. by exists v', h1, vs.
    + by etrans.
    + apply mapM_Some_2. csimpl. constructor.
      * by eapply reify_prefix.
      * by apply mapM_Some_1.
Qed.

End refinement.

(** X23. The two embeddings of [_prepare_related_value] agree.  When the
    argument stands for the tree [t] (its references lead to live objects
    and do not go round in a circle) and the recursion limit is beyond its
    nesting, the function on the object store returns, changes no object
    that exists, and its result stands for what the function on trees
    returns for [t]. *)
Theorem store_prepare_refines n depth h v t :
  reify n h v = Some t ->
  n < depth ->
  exists v' h',
    _prepare_related_value depth v h = Ok (v', h') /\
    h `prefix_of` h' /\
    reify n h' v' = Some (FormValidation._prepare_related_value t).
Proof.
  assert (forall n depth h v t,
    (forall a, v ≠ SRef a) -> reify n h v = Some t -> 0 < depth ->
    exists v' h',
      _prepare_related_value depth v h = Ok (v', h') /\
      h `prefix_of` h' /\
      reify n h' v' = Some (FormValidation._prepare_related_value t)) as Himm.
  { clear. intros n [|k] h v t Hv Hr Hd; [lia|].
    rewrite reify_immediate in Hr by done. injection Hr as <-.
    destruct v as [| | | |a]; try (by destruct (Hv a));
      eexists _, h; (split_and!; [done|done|by apply reify_immediate]). }
  revert depth h v t. induction n as [|n IH]; intros depth h v t Hr Hd.
  { destruct v as [| | | |a]; [| | | |done]; (apply Himm; [done|done|lia]). }
  destruct v as [| | | |a]; try (apply Himm; [done|done|lia]).
  destruct depth as [|k]; [lia|].
  destruct (h !! a) as [o|] eqn:Ha; [|by simpl in Hr; rewrite Ha in Hr].
  pose proof (reify_ref_shape _ _ _ _ _ Ha Hr) as Hshape.
  simpl. unfold mbind at 1, M_bind at 1, get_object. simpl. rewrite Ha.
  destruct o as [items|m|pk attrs|bd bo|attrs].
  - destruct Hshape as (ts & Hts & ->).
    destruct (for_each_refines n k h items ts) as (vs & h1 & Hvs & Hh1 & Hr1);
      [|done|].
    { intros v0 t0 h0 H0. apply IH; [done|lia]. }
    unfold mbind, M_bind. rewrite Hvs. simpl.
    eexists _, _. split_and!; [done| |].
    + etrans; [done|]. by apply prefix_app_r.
    + simpl. rewrite list_lookup_middle by done.
      erewrite mapM_mono; [done| |done].
      intros x y. apply reify_prefix. by apply prefix_app_r.
  - destruct Hshape as (d & Hd' & ->).
    pose proof (proj1 (reify_items_Some _ _ _) Hd' "id"%string) as Hid.
    simpl. destruct (m !! "id"%string) as [x|].
    + destruct Hid as (y & Hy & ->). exists x, h.
      split_and!; [done..|]. by apply reify_S.
    + rewrite Hid. by exists (SRef a), h.
  - destruct Hshape as (pk' & attrs' & Hpk & ->). exists pk, h.
    split_and!; [done..|]. by apply reify_S.
  - destruct Hshape as (bd' & bo' & ->). by exists (SRef a), h.
  - destruct Hshape as (attrs' & ->). by exists (SRef a), h.
Qed.

End Refinement.

Section refinement_sample.
Import Store Sample.

Lemma store_prepare_refines_witness :
  exists v' h',
    _prepare_related_value 3 (SRef 1) note_store = Ok (v', h') /\
    note_store `prefix_of` h' /\
    reify 2 h' v' =
      Some (FormValidation._prepare_related_value (VList [tag 1; tag 2])).
Proof.
  apply (Refinement.store_prepare_refines 2 3 note_store (SRef 1)).
  - vm_compute. reflexivity.
  - vm_compute. reflexivity.
Defined.

End refinement_sample.

(** * The data that the form is given *)

Module FormData.
Import Store StoreFacts StoreMore.
Local Open Scope nat_scope.

Section steps.
Context (h0 : store).

(** One step of a computation that keeps [h0]. *)
Lemma keeps_step {A} (c : M A) (Q : A -> Prop) h a h' :
  keeps h0 c Q -> h0 `prefix_of` h -> c h = Ok (a, h') ->
  h0 `prefix_of` h' /\ Q a.
Proof. intros Hc Hh Hch. specialize (Hc h Hh). by rewrite Hch in Hc. Qed.

Lemma bind_Ok_inv {A B} (c : M A) (f : A -> M B) h b h' :
  (c ≫= f) h = Ok (b, h') ->
  exists a h1, c h = Ok (a, h1) /\ f a h1 = Ok (b, h').
Proof.
  unfold mbind, M_bind. destruct (c h) as [[a h1]|e]; [|done]. eauto.
Qed.

(** Lines 79-81: the first loop writes to [data] only. *)
Lemma keeps_declared_loop (bf : gmap string FormField) bundle_data data :
  fresh h0 data ->
  keeps h0
    (for_items bf (fun name field =>
       present ← dict_contains bundle_data name;
       if present : bool then
         v ← dict_getitem bundle_data name;
         dict_setitem data name v
       else mret ()))
    (fun _ => True).
Proof.
  intros Hdata. apply keeps_for_items. intros name field _.
  eapply keeps_bind; [apply keeps_dict_contains|]. intros present _.
  destruct present; [|by apply keeps_ret].
  eapply keeps_bind; [apply keeps_dict_getitem|]. intros v _.
  by apply keeps_dict_setitem.
Qed.

(** Lines 85-89: the update writes to [kwargs] and [data] only. *)
Lemma keeps_update_block bundle resource (fc : FormClass) kwargs data o
    (pk : bool) :
  dehydrate_reads_only bundle resource ->
  fresh h0 kwargs -> fresh h0 data ->
  keeps h0
    (if pk then
       _ ← (if is_model_form fc then dict_setitem kwargs "instance" o
            else mret ());
       model_data ← model_to_dict bundle resource;
       dict_update data model_data
     else mret ())
    (fun _ => True).
Proof.
  intros Hdehydrate Hkwargs Hdata. destruct pk; [|by apply keeps_ret].
  eapply keeps_bind with (Q := fun _ => True).
  { destruct (is_model_form fc);
      [by apply keeps_dict_setitem|by apply keeps_ret]. }
  intros _ _. eapply keeps_bind; [by apply keeps_model_to_dict|].
  intros model_data _. by apply keeps_dict_update.
Qed.

(** Lines 94-96: the second loop writes to the copy of [data] only. *)
Lemma keeps_prepare_loop depth (bf : gmap string FormField) data :
  fresh h0 data ->
  keeps h0
    (for_items bf (fun name field =>
       if is_related field then
         present ← dict_contains data name;
         if present : bool then
           v ← dict_getitem data name;
           v ← _prepare_related_value depth v;
           dict_setitem data name v
         else mret ()
       else mret ()))
    (fun _ => True).
Proof.
  intros Hdata. apply keeps_for_items. intros name field _.
  destruct (is_related field); [|by apply keeps_ret].
  eapply keeps_bind; [apply keeps_dict_contains|]. intros present _.
  destruct present; [|by apply keeps_ret].
  eapply keeps_bind; [apply keeps_dict_getitem|]. intros v _.
  eapply keeps_bind; [apply keeps_prepare_related_value|]. intros v' _.
  by apply keeps_dict_setitem.
Qed.

End steps.

(** X24. The data that the form is given is a dictionary of its own: the
    object that [form_args] returns is a dictionary whose ['data'] is an
    object that did not exist when [form_args] was called, so it is neither
    [bundle.data] nor any other object of the caller (the [dehydrate] methods
    of the resource are taken to change no existing object). *)
Theorem store_form_args_data_new depth self bundle resource h kwargs h' :
  dehydrate_reads_only bundle resource ->
  form_args depth self bundle resource h = Ok (kwargs, h') ->
  exists m d,
    object_of h' kwargs = Some (ODict m) /\
    m !! "data"%string = Some d /\
    fresh h d.
Proof.
  intros Hdehydrate Hargs. unfold form_args in Hargs.
  assert (h `prefix_of` h) as Hpre by done. revert Hpre Hargs.
  generalize h at 2 3 as h1. intros h1 Hpre Hargs.
  apply bind_Ok_inv in Hargs as (fc & h2 & Hfc & Hargs).
  assert (h2 = h1) as ->.
  { destruct (FormValidation.form_class self); [|done]. by injection Hfc. }
  clear Hfc.
  apply bind_Ok_inv in Hargs as (d & h2 & Hstep & Hargs).
  destruct (keeps_step h _ _ _ _ _ (keeps_bundle_data h bundle) Hpre Hstep)
    as [Hpre2 _]. clear h1 Hpre Hstep.
  apply bind_Ok_inv in Hargs as (t & h3 & Hstep & Hargs).
  destruct (keeps_step h _ _ _ _ _ (keeps_truthy h d) Hpre2 Hstep)
    as [Hpre3 _]. clear h2 Hpre2 Hstep.
  apply bind_Ok_inv in Hargs as (bundle_data & h4 & Hstep & Hargs).
  assert (h `prefix_of` h4) as Hpre4.
  { destruct t; [by injection Hstep as _ <-|].
    by destruct (keeps_step h _ _ _ _ _ (keeps_dict_new h) Hpre3 Hstep). }
  clear h3 Hpre3 Hstep.
  apply bind_Ok_inv in Hargs as (data & h5 & Hstep & Hargs).
  destruct (keeps_step h _ _ _ _ _ (keeps_dict_new h) Hpre4 Hstep)
    as [Hpre5 Hdata]. clear h4 Hpre4 Hstep.
  apply bind_Ok_inv in Hargs as (u1 & h6 & Hstep & Hargs).
  destruct (keeps_step h _ _ _ _ _
              (keeps_declared_loop h (base_fields fc) bundle_data data Hdata)
              Hpre5 Hstep) as [Hpre6 _]. clear h5 Hpre5 Hstep.
  apply bind_Ok_inv in Hargs as (kw & h7 & Hstep & Hargs).
  destruct (keeps_step h _ _ _ _ _ (keeps_dict_new h) Hpre6 Hstep)
    as [Hpre7 Hkw]. clear h6 Hpre6 Hstep.
  apply bind_Ok_inv in Hargs as (o & h8 & Hstep & Hargs).
  destruct (keeps_step h _ _ _ _ _ (keeps_bundle_obj h bundle) Hpre7 Hstep)
    as [Hpre8 _]. clear h7 Hpre7 Hstep.
  apply bind_Ok_inv in Hargs as (pk & h9 & Hstep & Hargs).
  destruct (keeps_step h _ _ _ _ _ (keeps_has_pk h o) Hpre8 Hstep)
    as [Hpre9 _]. clear h8 Hpre8 Hstep.
  apply bind_Ok_inv in Hargs as (u2 & h10 & Hstep & Hargs).
  destruct (keeps_step h _ _ _ _ _
              (keeps_update_block h bundle resource fc kw data o pk
                 Hdehydrate Hkw Hdata)
              Hpre9 Hstep) as [Hpre10 _]. clear h9 Hpre9 Hstep.
  apply bind_Ok_inv in Hargs as (data' & h11 & Hstep & Hargs).
  destruct (keeps_step h _ _ _ _ _ (keeps_dict_copy h data) Hpre10 Hstep)
    as [Hpre11 Hdata']. clear h10 Hpre10 Hstep.
  apply bind_Ok_inv in Hargs as (u3 & h12 & Hstep & Hargs).
  destruct (keeps_step h _ _ _ _ _
              (keeps_prepare_loop h depth (base_fields fc) data' Hdata')
              Hpre11 Hstep) as [Hpre12 _]. clear h11 Hpre11 Hstep.
  apply bind_Ok_inv in Hargs as (u4 & h13 & Hstep & Hargs).
  injection Hargs as <- <-.
  destruct Hkw as (a & -> & Ha). unfold dict_setitem in Hstep.
  apply bind_Ok_inv in Hstep as (m & h14 & Hm & Hstep).
  unfold as_dict, get_object, mbind, M_bind in Hm. simpl in Hm.
  destruct (h12 !! a) as [[| m' | | |]|] eqn:Hlook; try done.
  injection Hm as <- <-. injection Hstep as _ <-.
  exists (<["data"%string := data']> m'), data'.
  split_and!; [|by rewrite lookup_insert_eq|done].
  simpl. apply list_lookup_insert_eq. by eapply lookup_lt_Some.
Qed.

End FormData.

Section form_data_sample.
Import Store StoreFacts Sample.

Lemma store_form_args_data_new_witness :
  exists kwargs h',
    form_args 8 note_validation note_ref StoredNoteResource note_store
      = Ok (kwargs, h') /\
    exists m d,
      object_of h' kwargs = Some (ODict m) /\
      m !! "data"%string = Some d /\
      fresh note_store d.
Proof.
  eexists _, _. split; [vm_compute; reflexivity|].
  apply (FormData.store_form_args_data_new 8 note_validation note_ref
           StoredNoteResource note_store).
  - exact stored_note_resource_reads_only.
  - vm_compute. reflexivity.
Defined.

End form_data_sample.
